(** * Video ingestion pipeline: a shallow embedding of the upload handlers

    The development follows the Go sources of the repository:
    - [src/handler_upload_video.go]: the upload handler that stores a direct
      URL (module [Direct] below);
    - the second upload-handler source: the same handler extended with the
      fast-start remux and the composite "bucket,key" locator (module
      [FastStart] below), together with [processVideoForFastStart],
      [generatePresignedURL] and [dbVideoToSignedVideo];
    - the thumbnail source, of which [mimeToExt] is used by both handlers.

    Go [int] is modelled as [Z] (64-bit, wrap-around written out where an
    operation can overflow), [float64] as IEEE-754 binary64 through the
    axiom-free specification [SpecFloat] of the Standard Library, strings as
    [string], the disk, the object store and the metadata store as [gmap]s. *)

From Stdlib Require Import ZArith Lia Bool List Ascii String.
From Stdlib Require Import DecimalString.
From Stdlib Require Import Floats.SpecFloat.
From stdpp Require Import base option list gmap strings.

Local Open Scope string_scope.
Local Open Scope Z_scope.

(** ** Outcomes of Go code that can panic *)

Inductive outcome (A : Type) : Type :=
  | Returned (a : A)
  | Panicked (msg : string).
Arguments Returned {A} a.
Arguments Panicked {A} msg.

Definition divide_by_zero : string := "runtime error: integer divide by zero".

(** ** Go [int] (64 bit) *)

Module GoInt.

Definition min_int : Z := - 2 ^ 63.
Definition max_int : Z := 2 ^ 63 - 1.

(** Two's-complement wrap-around of a mathematical integer. *)
Definition wrap (z : Z) : Z := (z + 2 ^ 63) mod 2 ^ 64 - 2 ^ 63.

(** [x / y]: truncated quotient, run-time panic on a zero divisor. *)
Definition quo (x y : Z) : outcome Z :=
  if y =? 0 then Panicked divide_by_zero else Returned (wrap (Z.quot x y)).

(** [x % y] on a non-zero divisor: truncated remainder (no overflow). *)
Definition rem (x y : Z) : Z := Z.rem x y.

(** [strconv]-style decimal rendering, as [%d] prints it. *)
Definition itoa (z : Z) : string := NilEmpty.string_of_int (Z.to_int z).

End GoInt.

(** ** Go [float64] *)

Module F64.

Definition prec : Z := 53.
Definition emax : Z := 1024.

Definition t := spec_float.

(** [float64(n)] for an integer [n]: round to nearest, ties to even. *)
Definition of_int (n : Z) : t := binary_normalize prec emax n 0 false.

Definition div : t -> t -> t := SFdiv prec emax.
Definition sub : t -> t -> t := SFsub prec emax.
Definition abs : t -> t := SFabs.
Definition ltb : t -> t -> bool := SFltb.

(** [int(f)]: truncation toward zero.  Out-of-range values, infinities and
    NaN are implementation-defined in Go; amd64 yields the most negative
    integer, which is what is modelled. *)
Definition to_int (f : t) : Z :=
  match f with
  | S754_zero _ => 0
  | S754_finite s m e =>
      let mag := match e with
                 | Zneg p => Z.shiftr (Zpos m) (Zpos p)
                 | _ => Z.shiftl (Zpos m) e
                 end in
      let v := if s then - mag else mag in
      if (GoInt.min_int <=? v) && (v <=? GoInt.max_int) then v
      else GoInt.min_int
  | _ => GoInt.min_int
  end.

End F64.

(** ** [getVideoAspectRatio]: the classification of the first stream *)

(** One entry of [FFProbeOutput.Streams]. *)
Record Stream : Type := { Width : Z; Height : Z }.

(** [const epsilon = 0.02], converted to [float64] where it is compared. *)
Definition epsilon : F64.t := F64.div (F64.of_int 2) (F64.of_int 100).

(** The constant expressions [16.0/9.0] and [9.0/16.0] as [float64]. *)
Definition sixteen_ninths : F64.t := F64.div (F64.of_int 16) (F64.of_int 9).
Definition nine_sixteenths : F64.t := F64.div (F64.of_int 9) (F64.of_int 16).

(** [math.Abs(ratio - c) < epsilon] *)
Definition within_epsilon (ratio c : F64.t) : bool :=
  F64.ltb (F64.abs (F64.sub ratio c)) epsilon.

(** [for b != 0 { a, b = b, a%b }], the value of [a] on exit.  The loop is
    unrolled along a counter that [gcd_loop] below sets high enough. *)
Fixpoint gcd_iter (n : nat) (a b : Z) : Z :=
  match n with
  | O => a
  | S n' => if b =? 0 then a else gcd_iter n' b (GoInt.rem a b)
  end.

Definition gcd_loop (a b : Z) : Z := gcd_iter (S (Z.abs_nat b)) a b.

(** The [default] branch of the switch: [fmt.Sprintf("%d:%d", int(w)/g, int(h)/g)]. *)
Definition reduced_fraction (w h : F64.t) : outcome string :=
  let a := F64.to_int w in
  let b := F64.to_int h in
  let g := gcd_loop a b in
  match GoInt.quo (F64.to_int w) g with
  | Panicked msg => Panicked msg
  | Returned x =>
      match GoInt.quo (F64.to_int h) g with
      | Panicked msg => Panicked msg
      | Returned y => Returned (GoInt.itoa x ++ ":" ++ GoInt.itoa y)
      end
  end.

(** The body of [if len(jsonFFP.Streams) > 0 { ... }] on the first stream. *)
Definition classify (width height : Z) : outcome string :=
  let w := F64.of_int width in
  let h := F64.of_int height in
  let ratio := F64.div w h in
  if within_epsilon ratio sixteen_ninths then Returned "16:9"
  else if within_epsilon ratio nine_sixteenths then Returned "9:16"
  else reduced_fraction w h.

(** The part of [getVideoAspectRatio] after the probe output is unmarshalled:
    [result] stays the empty string when no stream is reported. *)
Definition aspect_of_streams (streams : list Stream) : outcome string :=
  match streams with
  | [] => Returned ""
  | s :: _ => classify (Width s) (Height s)
  end.

(** The two tolerance tests in exact rational arithmetic, for comparison:
    |w/h - 16/9| < 1/50 and |w/h - 9/16| < 1/50 on a positive [h], cleared of
    denominators. *)
Definition exact_near_16_9 (w h : Z) : bool :=
  50 * Z.abs (9 * w - 16 * h) <? 9 * h.
Definition exact_near_9_16 (w h : Z) : bool :=
  50 * Z.abs (16 * w - 9 * h) <? 16 * h.

(** Do the float64 tests of the classifier and the exact tests agree? *)
Definition tests_agree (w h : Z) : bool :=
  let ratio := F64.div (F64.of_int w) (F64.of_int h) in
  Bool.eqb (within_epsilon ratio sixteen_ninths) (exact_near_16_9 w h)
  && Bool.eqb (within_epsilon ratio nine_sixteenths) (exact_near_9_16 w h).

(** ** Strings: [strings.Split] on a one-character separator, [mimeToExt] *)

(** Number of occurrences of a character. *)
Fixpoint count_char (c : ascii) (s : string) : nat :=
  match s with
  | EmptyString => O
  | String x s' => (if Ascii.eqb x c then 1 else 0) + count_char c s'
  end.

(** [strings.Split(s, sep)] for a separator of one character; the handlers
    only split on ["/"] and [","].  The result is never empty: splitting the
    empty string yields one empty component. *)
Fixpoint Split (sep : ascii) (s : string) : list string :=
  match s with
  | EmptyString => [EmptyString]
  | String x s' =>
      if Ascii.eqb x sep then EmptyString :: Split sep s'
      else match Split sep s' with
           | part :: parts => String x part :: parts
           | [] => [String x EmptyString]
           end
  end.

(** [parts[len(parts)-1]] of [mimeToExt]; the slice is never empty, so the
    index expression cannot go out of range (lemma [Split_nonempty]). *)
Definition mimeToExt (mimeType : string) : string :=
  List.last (Split "/" mimeType) EmptyString.

(** ** [base64.RawURLEncoding.EncodeToString] (RFC 4648, section 5, unpadded) *)

Module Base64.

Definition encodeURL : list ascii :=
  list_ascii_of_string
    "ABCDEFGHIJKLMNOPQRSTUVWXYZabcdefghijklmnopqrstuvwxyz0123456789-_".

(** [enc.encode[i & 0x3F]] *)
Definition enc (i : Z) : ascii :=
  nth (Z.to_nat (Z.land i 63)) encodeURL "A"%char.

Definition byte_val (b : Byte.byte) : Z := Z.of_N (Byte.to_N b).

Fixpoint encode (src : list Byte.byte) : string :=
  match src with
  | [] => EmptyString
  | [b0] =>
      let val := Z.shiftl (byte_val b0) 16 in
      String (enc (Z.shiftr val 18)) (String (enc (Z.shiftr val 12)) EmptyString)
  | [b0; b1] =>
      let val := Z.lor (Z.shiftl (byte_val b0) 16) (Z.shiftl (byte_val b1) 8) in
      String (enc (Z.shiftr val 18))
        (String (enc (Z.shiftr val 12))
           (String (enc (Z.shiftr val 6)) EmptyString))
  | b0 :: b1 :: b2 :: rest =>
      let val := Z.lor (Z.lor (Z.shiftl (byte_val b0) 16)
                              (Z.shiftl (byte_val b1) 8)) (byte_val b2) in
      String (enc (Z.shiftr val 18))
        (String (enc (Z.shiftr val 12))
           (String (enc (Z.shiftr val 6))
              (String (enc val) (encode rest))))
  end.

Definition RawURLEncoding_EncodeToString (src : list Byte.byte) : string :=
  encode src.

End Base64.

(** ** Storage-key derivation (the [switch aspectRatio] of the handlers) *)

Definition key_prefix (aspectRatio : string) : string :=
  if String.eqb aspectRatio "16:9" then "landscape"
  else if String.eqb aspectRatio "9:16" then "portrait"
  else "other".

(** [fmt.Sprintf("<prefix>/%s.%s", randFileName, mimeToExt(mediaType))] *)
Definition fileKey (aspectRatio randFileName mediaType : string) : string :=
  key_prefix aspectRatio +:+ "/" +:+ randFileName +:+ "." +:+ mimeToExt mediaType.

(** ** Errors, records and the environment of one request *)

(** A non-nil Go [error], identified by its message. *)
Definition error : Type := string.

(** A Go pair [(value, err)]: either the value with [err == nil] or an error. *)
Inductive result (A : Type) : Type :=
  | Ok (a : A)
  | Err (e : error).
Arguments Ok {A} a.
Arguments Err {A} e.

(** [uuid.UUID], a 128-bit value; [uuid.Nil] is the zero value. *)
Definition UUID : Type := N.
Definition uuid_Nil : UUID := 0%N.

(** [time.Duration] counts nanoseconds. *)
Definition time_Second : Z := 1000000000.
Definition time_Minute : Z := 60 * time_Second.

(** Modelled from the spec: [database.Video], whose declaration is not among
    the sources.  The fields are those of the spec's VideoRecord that the
    handlers read or write: the record id, the owner principal, the locator
    (a [*string], [None] for nil) and the updated-at timestamp. *)
Record Video : Type := mkVideo {
  ID : UUID;
  UserID : UUID;
  VideoURL : option string;
  UpdatedAt : Z
}.

(** [database.Video{}] *)
Definition zero_Video : Video := mkVideo uuid_Nil uuid_Nil None 0.

Definition set_VideoURL (u : option string) (v : Video) : Video :=
  mkVideo (ID v) (UserID v) u (UpdatedAt v).
Definition set_UpdatedAt (t : Z) (v : Video) : Video :=
  mkVideo (ID v) (UserID v) (VideoURL v) t.

(** The fields of [s3.PutObjectInput] that the handlers set. *)
Record PutObjectInput : Type := mkPutObjectInput {
  Bucket : string;
  Key : string;
  Body : string;
  ContentType : string
}.

(** The fields of [apiConfig] that are plain data. *)
Record apiConfig : Type := mkApiConfig {
  s3Bucket : string;
  s3Region : string
}.

(** Everything one request observes from outside the handler: the request
    itself, and the answers of the libraries, processes and services it calls.
    Each field is named after the call it answers. *)
Record Env : Type := mkEnv {
  url_Base : string;                                  (* path.Base(r.URL.String()) *)
  uuid_Parse : string -> option UUID;                 (* uuid.MustParse panics on None *)
  auth_GetBearerToken : result string;
  auth_ValidateJWT : string -> result UUID;
  r_FormFile : result (string * string);              (* bytes, Content-Type header *)
  mime_ParseMediaType : string -> result string;
  os_CreateTemp : result string;                      (* name of the new file *)
  io_Copy : string -> string;                         (* bytes that reach the temp file *)
  rand_Read : list Byte.byte;                         (* the 32 random bytes *)
  ffprobe : string -> option string -> result string; (* stdout, or the run error *)
  json_Unmarshal : string -> result (list Stream);
  ffmpeg : string -> option string -> option error * option string;
                                                      (* run error, bytes left at the work path *)
  os_Open_error : option error;
  s3_PutObject : PutObjectInput -> option error;
  db_UpdateVideo : Video -> option error;
  s3_PresignGetObject : string -> string -> Z -> result string;
  time_Now : Z
}.

(** ** Observable effects *)

Inductive Event : Type :=
  | EvGetVideo (id : UUID)
  | EvCreateTemp (name : string)
  | EvCopy (name : string)
  | EvRemove (name : string)
  | EvProbe (name : string) (ok : bool)
  | EvRemux (input output : string)
  | EvPutObject (input : PutObjectInput) (ok : bool)
  | EvUpdateVideo (v : Video) (ok : bool)
  | EvPresign (bucket key : string) (expire : Z)
  | EvRespond (code : Z).

(** The state a request runs against: the local disk, the object store, the
    metadata store, and the effects of the request so far (oldest first). *)
Record World : Type := mkWorld {
  disk : gmap string string;
  objects : gmap (string * string) string;
  videos : gmap UUID Video;
  trace : list Event
}.

Definition emit (e : Event) (w : World) : World :=
  mkWorld (disk w) (objects w) (videos w) (trace w ++ [e])%list.

Definition set_disk (d : gmap string string) (w : World) : World :=
  mkWorld d (objects w) (videos w) (trace w).

(** The HTTP status of a response is fixed by the first [WriteHeader]. *)
Fixpoint status (tr : list Event) : option Z :=
  match tr with
  | [] => None
  | EvRespond code :: _ => Some code
  | _ :: tr' => status tr'
  end.

Definition StatusOK : Z := 200.
Definition StatusBadRequest : Z := 400.
Definition StatusUnauthorized : Z := 401.
Definition StatusNotFound : Z := 404.
Definition StatusInternalServerError : Z := 500.

(** Modelled from the spec: [respondWithError] and [respondWithJSON] are not
    among the sources; each writes one response with the given status (a
    structured error on failure, the payload on success). *)
Definition respondWithError (code : Z) (msg : string) (w : World) : World :=
  emit (EvRespond code) w.
Definition respondWithJSON (code : Z) (w : World) : World :=
  emit (EvRespond code) w.

(** ** Disk, object store and metadata store operations *)

Definition os_Remove (name : string) (w : World) : World :=
  emit (EvRemove name) (set_disk (delete name (disk w)) w).

Definition write_file (name contents : string) (w : World) : World :=
  set_disk (<[name := contents]> (disk w)) w.

(** Modelled from the spec: [cfg.db.GetVideo], get-by-id returning the record
    or not-found; on not-found the record returned with the error is the zero
    value, as Go functions return it. *)
Definition db_GetVideo (id : UUID) (w : World) : (Video * option error) * World :=
  (match videos w !! id with
   | Some v => (v, None)
   | None => (zero_Video, Some "not found")
   end, emit (EvGetVideo id) w).

(** Modelled from the spec: [cfg.db.UpdateVideo], update-by-id; the store
    either rejects the write or holds the new record afterwards. *)
Definition db_Update (env : Env) (v : Video) (w : World) : option error * World :=
  match db_UpdateVideo env v with
  | Some e => (Some e, emit (EvUpdateVideo v false) w)
  | None =>
      (None, emit (EvUpdateVideo v true)
               (mkWorld (disk w) (objects w) (<[ID v := v]> (videos w)) (trace w)))
  end.

(** [cfg.s3Client.PutObject]: a single put; on success the object is stored. *)
Definition s3_Put (env : Env) (input : PutObjectInput) (w : World)
  : option error * World :=
  match s3_PutObject env input with
  | Some e => (Some e, emit (EvPutObject input false) w)
  | None =>
      (None, emit (EvPutObject input true)
               (mkWorld (disk w)
                        (<[(Bucket input, Key input) := Body input]> (objects w))
                        (videos w) (trace w)))
  end.

(** ** [mimeCheckVideo] *)

Definition mimeCheckVideo (env : Env) (mimeType : string) : option error :=
  match mime_ParseMediaType env mimeType with
  | Err e => Some e
  | Ok m => if String.eqb m "video/mp4" then None
            else Some "not supported mimetype"
  end.

(** ** [getVideoAspectRatio] *)

Definition getVideoAspectRatio (env : Env) (filePath : string) (w : World)
  : outcome (result string) * World :=
  match ffprobe env filePath (disk w !! filePath) with
  | Err e => (Returned (Err ("unable to run ffprobe " +:+ e)),
              emit (EvProbe filePath false) w)
  | Ok out =>
      match json_Unmarshal env out with
      | Err e => (Returned (Err ("unmarshal error " +:+ e)),
                  emit (EvProbe filePath false) w)
      | Ok streams =>
          let w1 := emit (EvProbe filePath true) w in
          match aspect_of_streams streams with
          | Panicked msg => (Panicked msg, w1)
          | Returned r => (Returned (Ok r), w1)
          end
      end
  end.

(** ** [processVideoForFastStart] *)

Definition workFile_of (filePath : string) : string := filePath +:+ ".processing".

(** The disk once the ffmpeg process has ended. *)
Definition after_ffmpeg (env : Env) (filePath : string) (w : World) : World :=
  let workFile := workFile_of filePath in
  emit (EvRemux filePath workFile)
    match snd (ffmpeg env filePath (disk w !! filePath)) with
    | Some bytes => write_file workFile bytes w
    | None => w
    end.

Definition processVideoForFastStart (env : Env) (filePath : string) (w : World)
  : result string * World :=
  let workFile := workFile_of filePath in
  let w1 := after_ffmpeg env filePath w in
  match fst (ffmpeg env filePath (disk w !! filePath)) with
  | Some e => (Err ("ffmpeg faststart failed: " +:+ e), os_Remove workFile w1)
  | None =>
      match disk w1 !! workFile with          (* os.Stat(workFile) *)
      | None => (Err "ffmpeg produced no output file", w1)
      | Some bytes =>
          if Z.of_nat (String.length bytes) =? 0
          then (Err "ffmpeg output file is empty (input may be invalid)",
                os_Remove workFile w1)
          else (Ok workFile, w1)
      end
  end.

(** ** [generatePresignedURL] and [dbVideoToSignedVideo] *)

Definition generatePresignedURL (env : Env) (bucket key : string) (expireTime : Z)
  (w : World) : result string * World :=
  (s3_PresignGetObject env bucket key expireTime,
   emit (EvPresign bucket key expireTime) w).

Definition dbVideoToSignedVideo (env : Env) (video : Video) (w : World)
  : result Video * World :=
  match VideoURL video with
  | None => (Err "video URL is nil", w)
  | Some url =>
      match Split "," url with
      | [bucket; key] =>
          let expireTime := 15 * time_Minute in
          match generatePresignedURL env bucket key expireTime w with
          | (Err e, w1) => (Err e, w1)
          | (Ok presignedURL, w1) => (Ok (set_VideoURL (Some presignedURL) video), w1)
          end
      | _ => (Err "invalid video URL format", w)
      end
  end.

(** ** The upload handlers *)

Definition nil_dereference : string :=
  "runtime error: invalid memory address or nil pointer dereference".

(** A request starts on the given disk and stores with an empty effect log. *)
Definition initial (d : gmap string string) (o : gmap (string * string) string)
  (v : gmap UUID Video) : World := mkWorld d o v [].

(** [src/handler_upload_video.go]: the handler that publishes the staged file
    itself and records a direct URL. *)
Module Direct.

(** From [io.Copy] to the end of the function: the part that runs under the
    deferred [os.Remove]. *)
Definition upload_staged (cfg : apiConfig) (env : Env) (video : Video)
  (bytes mediaType tmp : string) (w : World) : outcome unit * World :=
  let w := emit (EvCopy tmp) (write_file tmp (io_Copy env bytes) w) in
  let randFileName := Base64.RawURLEncoding_EncodeToString (rand_Read env) in
  match getVideoAspectRatio env tmp w with
  | (Panicked msg, w) => (Panicked msg, w)
  | (Returned probe, w) =>
      (* on error the response is written and execution continues with
         the empty aspect ratio that accompanies the error *)
      let '(aspectRatio, w) :=
        match probe with
        | Err _ => (EmptyString,
                    respondWithError StatusInternalServerError "aspectRatio error" w)
        | Ok a => (a, w)
        end in
      let fileKey := fileKey aspectRatio randFileName mediaType in
      let s3Params :=
        mkPutObjectInput (s3Bucket cfg) fileKey
          (default EmptyString (disk w !! tmp)) mediaType in
      match s3_Put env s3Params w with
      | (Some _, w) =>
          (Returned tt,
           respondWithError StatusInternalServerError "cannot put to s3" w)
      | (None, w) =>
          let newURL := "https://" +:+ s3Bucket cfg +:+ ".s3." +:+ s3Region cfg
                        +:+ ".amazonaws.com/" +:+ fileKey in
          let video := set_VideoURL (Some newURL)
                         (set_UpdatedAt (time_Now env) video) in
          match db_Update env video w with
          | (Some _, w) =>
              (Returned tt,
               respondWithJSON StatusOK
                 (respondWithError StatusInternalServerError
                    "cannot load video to db" w))
          | (None, w) => (Returned tt, respondWithJSON StatusOK w)
          end
      end
  end.

Definition handlerUploadVideo (cfg : apiConfig) (env : Env) (w : World)
  : outcome unit * World :=
  match auth_GetBearerToken env with
  | Err _ => (Returned tt, respondWithError StatusUnauthorized "Couldn't find JWT" w)
  | Ok token =>
  match auth_ValidateJWT env token with
  | Err _ => (Returned tt,
              respondWithError StatusUnauthorized "Couldn't validate JWT" w)
  | Ok userID =>
  match uuid_Parse env (url_Base env) with
  | None => (Panicked "uuid: Parse: invalid UUID", w)
  | Some id =>
  let '((video, err), w) := db_GetVideo id w in
  if negb (N.eqb (UserID video) userID)
  then (Returned tt, respondWithError StatusUnauthorized "not video owner" w)
  else
  match err with
  | Some _ => (Returned tt, respondWithError StatusNotFound "cant find video" w)
  | None =>
  match r_FormFile env with
  | Err _ => (Returned tt,
              respondWithError StatusInternalServerError "error loading file" w)
  | Ok (bytes, mediaType) =>
  match mimeCheckVideo env mediaType with
  | Some _ => (Returned tt,
               respondWithError StatusBadRequest "not supported mimetype" w)
  | None =>
  match os_CreateTemp env with
  | Err _ => (Panicked nil_dereference, w)   (* tempFile is nil: tempFile.Name() *)
  | Ok tmp =>
      let w := emit (EvCreateTemp tmp) (write_file tmp EmptyString w) in
      let '(completion, w) := upload_staged cfg env video bytes mediaType tmp w in
      (completion, os_Remove tmp w)          (* defer os.Remove(tempFile.Name()) *)
  end end end end end end end.

End Direct.

(** The second upload-handler source: probe, fast-start remux, publish of the
    remuxed file, composite "bucket,key" locator, signed URL in the answer. *)
Module FastStart.

Definition upload_staged (cfg : apiConfig) (env : Env) (video : Video)
  (bytes mediaType tmp : string) (w : World) : outcome unit * World :=
  let w := emit (EvCopy tmp) (write_file tmp (io_Copy env bytes) w) in
  let randFileName := Base64.RawURLEncoding_EncodeToString (rand_Read env) in
  match getVideoAspectRatio env tmp w with
  | (Panicked msg, w) => (Panicked msg, w)
  | (Returned (Err _), w) =>
      (Returned tt,
       respondWithError StatusInternalServerError "aspectRatio error" w)
  | (Returned (Ok aspectRatio), w) =>
      let fileKey := fileKey aspectRatio randFileName mediaType in
      match processVideoForFastStart env tmp w with
      | (Err _, w) =>
          (Returned tt, respondWithError StatusInternalServerError "" w)
      | (Ok fsVideo, w) =>
          match os_Open_error env, disk w !! fsVideo with
          | Some _, _ | None, None =>
              (Returned tt, respondWithError StatusInternalServerError "" w)
          | None, Some f =>
              let s3Params := mkPutObjectInput (s3Bucket cfg) fileKey f mediaType in
              match s3_Put env s3Params w with
              | (Some _, w) =>
                  (Returned tt,
                   respondWithError StatusInternalServerError "cannot put to s3" w)
              | (None, w) =>
                  let newURL := s3Bucket cfg +:+ "," +:+ fileKey in
                  let video := set_VideoURL (Some newURL)
                                 (set_UpdatedAt (time_Now env) video) in
                  match db_Update env video w with
                  | (Some _, w) =>
                      (Returned tt,
                       respondWithError StatusInternalServerError
                         "cannot load video to db" w)
                  | (None, w) =>
                      match dbVideoToSignedVideo env video w with
                      | (Err _, w) =>
                          (Returned tt,
                           respondWithJSON StatusOK
                             (respondWithError StatusInternalServerError
                                "cannot presing the video" w))
                      | (Ok _, w) => (Returned tt, respondWithJSON StatusOK w)
                      end
                  end
              end
          end
      end
  end.

Definition handlerUploadVideo (cfg : apiConfig) (env : Env) (w : World)
  : outcome unit * World :=
  match auth_GetBearerToken env with
  | Err _ => (Returned tt, respondWithError StatusUnauthorized "Couldn't find JWT" w)
  | Ok token =>
  match auth_ValidateJWT env token with
  | Err _ => (Returned tt,
              respondWithError StatusUnauthorized "Couldn't validate JWT" w)
  | Ok userID =>
  match uuid_Parse env (url_Base env) with
  | None => (Panicked "uuid: Parse: invalid UUID", w)
  | Some id =>
  let '((video, err), w) := db_GetVideo id w in
  if negb (N.eqb (UserID video) userID)
  then (Returned tt, respondWithError StatusUnauthorized "not video owner" w)
  else
  match err with
  | Some _ => (Returned tt, respondWithError StatusNotFound "cant find video" w)
  | None =>
  match r_FormFile env with
  | Err _ => (Returned tt,
              respondWithError StatusInternalServerError "error loading file" w)
  | Ok (bytes, mediaType) =>
  match mimeCheckVideo env mediaType with
  | Some _ => (Returned tt,
               respondWithError StatusBadRequest "not supported mimetype" w)
  | None =>
  match os_CreateTemp env with
  | Err _ => (Panicked nil_dereference, w)   (* tempFile is nil: tempFile.Name() *)
  | Ok tmp =>
      let w := emit (EvCreateTemp tmp) (write_file tmp EmptyString w) in
      let '(completion, w) := upload_staged cfg env video bytes mediaType tmp w in
      (completion, os_Remove tmp w)          (* defer os.Remove(tempFile.Name()) *)
  end end end end end end end.

End FastStart.

(** ** Properties of effect logs *)

(** Every metadata update in the log comes after a successful put. *)
Definition update_only_after_put (tr : list Event) : Prop :=
  forall pre u ok post,
    tr = (pre ++ EvUpdateVideo u ok :: post)%list ->
    exists input, EvPutObject input true ∈ pre.

(** The metadata store's update operation is never invoked. *)
Definition no_update (tr : list Event) : Prop :=
  forall u ok, EvUpdateVideo u ok ∉ tr.

(** The events that follow the failed probe, when the log has one: the
    probe is logged as failed when the process exits non-zero or its output
    does not unmarshal. *)
Fixpoint after_failed_probe (tr : list Event) : option (list Event) :=
  match tr with
  | [] => None
  | EvProbe _ false :: post => Some post
  | _ :: tr' => after_failed_probe tr'
  end.

(** Executable counterparts, used to check the logs of the handlers. *)
Fixpoint updates_guarded (seen_put : bool) (tr : list Event) : bool :=
  match tr with
  | [] => true
  | EvPutObject _ true :: tr' => updates_guarded true tr'
  | EvUpdateVideo _ _ :: tr' => seen_put && updates_guarded seen_put tr'
  | _ :: tr' => updates_guarded seen_put tr'
  end.

Definition is_update (e : Event) : bool :=
  match e with EvUpdateVideo _ _ => true | _ => false end.

Definition is_failed_put (e : Event) : bool :=
  match e with EvPutObject _ false => true | _ => false end.

(** The publish-before-record discipline on the outcome of a request that
    started with the metadata store [v]: updates only follow a successful put,
    and a failed put means an internal-error answer, no update attempted and
    the metadata store as it was. *)
Definition put_gate (v : gmap UUID Video) (w : World) : Prop :=
  update_only_after_put (trace w)
  /\ forall input, EvPutObject input false ∈ trace w ->
       status (trace w) = Some StatusInternalServerError
       /\ no_update (trace w) /\ videos w = v.

(** ** A concrete request, for running the handlers *)

Module Example.

Definition cfg : apiConfig := mkApiConfig "tubely-media" "us-east-2".

Definition alice : UUID := 1%N.
Definition bob : UUID := 2%N.
Definition video_id : UUID := 7%N.
Definition video_path : string := "0b9c2f0e-3f4a-4a51-9c1d-5a8e6d2b7f07".
Definition temp_name : string := "/tmp/tubely-temp-upload.mp4104729".

(** Alice uploads an mp4 for video 7.  The answers of the probe, the
    unmarshalling, the remux, the put and the update are left open. *)
Definition env (probe : result string) (streams : result (list Stream))
  (remux : option error * option string) (put update : option error) : Env :=
  mkEnv video_path
    (fun s => if String.eqb s video_path then Some video_id else None)
    (Ok "bearer-of-alice")
    (fun t => if String.eqb t "bearer-of-alice" then Ok alice
              else Err "invalid token")
    (Ok ("mp4-bytes", "video/mp4"))
    (fun s => if String.eqb s "video/mp4" then Ok "video/mp4"
              else Err "mime: unexpected content")
    (Ok temp_name)
    (fun bytes => bytes)
    (repeat Byte.x2a 32)
    (fun _ _ => probe)
    (fun _ => streams)
    (fun _ _ => remux)
    None
    (fun _ => put)
    (fun _ => update)
    (fun bucket key _ => Ok ("https://" +:+ bucket +:+ "/" +:+ key +:+ "?signed"))
    1700000000.

Definition landscape : result (list Stream) :=
  Ok [{| Width := 1920; Height := 1080 |}].

(** Every stage succeeds. *)
Definition happy : Env :=
  env (Ok "{...}") landscape (None, Some "remuxed-bytes") None None.

(** The probe process exits non-zero. *)
Definition probe_fails : Env :=
  env (Err "exit status 1") landscape (None, Some "remuxed-bytes") None None.

(** The object store rejects the put. *)
Definition put_fails : Env :=
  env (Ok "{...}") landscape (None, Some "remuxed-bytes")
      (Some "AccessDenied") None.

(** The first stream reported by the probe has no dimensions. *)
Definition no_dimensions : Env :=
  env (Ok "{...}") (Ok [{| Width := 0; Height := 0 |}])
      (None, Some "remuxed-bytes") None None.

(** The metadata store holding video 7 for the given owner. *)
Definition store (owner : UUID) : gmap UUID Video :=
  {[ video_id := mkVideo video_id owner None 0 ]}.

(** A world in which the upload has been staged. *)
Definition staged : World :=
  mkWorld {[ temp_name := "mp4-bytes" ]} ∅ ∅ [].

End Example.


(** ** Tactics: the handlers, path by path *)

Ltac unfold_handler :=
  unfold Direct.handlerUploadVideo, Direct.upload_staged,
    FastStart.handlerUploadVideo, FastStart.upload_staged,
    getVideoAspectRatio, processVideoForFastStart, after_ffmpeg,
    dbVideoToSignedVideo, generatePresignedURL, s3_Put, db_Update,
    db_GetVideo, mimeCheckVideo, respondWithError, respondWithJSON,
    os_Remove, write_file, emit, set_disk, initial.

(** One branching point of a handler: the innermost scrutinee. *)
Ltac branch :=
  match goal with
  | |- context [match ?x with _ => _ end] =>
      lazymatch x with
      | context [match _ with _ => _ end] => fail
      | context [fst _] => fail
      | context [snd _] => fail
      | _ => destruct x eqn:?
      end
  | |- context [fst ?p] =>
      lazymatch p with (_, _) => fail | _ => destruct p eqn:? end
  | |- context [snd ?p] =>
      lazymatch p with (_, _) => fail | _ => destruct p eqn:? end
  end.

(** All execution paths of a handler, one goal each. *)
Ltac handler_paths :=
  unfold_handler; cbn [fst snd disk objects videos trace];
  repeat (branch; cbn [fst snd disk objects videos trace]).


(** ** Counting the stages in an effect log *)

Definition is_probe (e : Event) : bool :=
  match e with EvProbe _ _ => true | _ => false end.
Definition is_remux (e : Event) : bool :=
  match e with EvRemux _ _ => true | _ => false end.
Definition is_put_attempt (e : Event) : bool :=
  match e with EvPutObject _ _ => true | _ => false end.
Definition is_create (e : Event) : bool :=
  match e with EvCreateTemp _ => true | _ => false end.

(** How many events of a kind a log holds. *)
Fixpoint occurrences (kind : Event -> bool) (tr : list Event) : nat :=
  match tr with
  | [] => O
  | e :: tr' => ((if kind e then 1 else 0) + occurrences kind tr')%nat
  end.

(** All execution paths of a handler run [r], for a goal about [fst r] and
    [snd r]: the run is named once and the property kept aside while the
    paths are split. *)
Ltac handler_run r :=
  let run := fresh "run" in
  let Hr := fresh "Hr" in
  let Q := fresh "Q" in
  remember r as run eqn:Hr; pattern run;
  match goal with |- ?P run => set (Q := P) end;
  revert Hr; handler_paths; intros ->; subst Q;
  cbn beta; cbn [fst snd disk objects videos trace app].

(** Membership of an event in an explicit log, case by case. *)
Ltac log_cases H :=
  repeat (apply elem_of_cons in H as [H | H]; [try discriminate H |]);
  try (apply elem_of_nil in H; contradiction).

(** The owner test of the handlers, as an equation. *)
(** Membership of an event in a concrete log. *)
Ltac in_log :=
  vm_compute; repeat first [apply list_elem_of_here | apply list_elem_of_further].

Ltac owner_checked :=
  match goal with
  | H : negb (N.eqb _ _) = false |- _ =>
      apply negb_false_iff in H; apply N.eqb_eq in H
  end.

(** ** More concrete requests *)

Module Example2.

(** The request of [e] with another bearer-token result. *)
Definition with_token (t : result string) (e : Env) : Env :=
  mkEnv (url_Base e) (uuid_Parse e) t (auth_ValidateJWT e) (r_FormFile e)
    (mime_ParseMediaType e) (os_CreateTemp e) (io_Copy e) (rand_Read e)
    (ffprobe e) (json_Unmarshal e) (ffmpeg e) (os_Open_error e)
    (s3_PutObject e) (db_UpdateVideo e) (s3_PresignGetObject e) (time_Now e).

(** The request of [e] with another declared media type, which the media
    type parser reads as [canonical]. *)
Definition with_media_type (mediaType : string) (canonical : result string)
  (e : Env) : Env :=
  mkEnv (url_Base e) (uuid_Parse e) (auth_GetBearerToken e) (auth_ValidateJWT e)
    (Ok ("mp4-bytes", mediaType))
    (fun s => if String.eqb s mediaType then canonical
              else mime_ParseMediaType e s)
    (os_CreateTemp e) (io_Copy e) (rand_Read e)
    (ffprobe e) (json_Unmarshal e) (ffmpeg e) (os_Open_error e)
    (s3_PutObject e) (db_UpdateVideo e) (s3_PresignGetObject e) (time_Now e).

Definition no_token : Env := with_token (Err "auth header missing") Example.happy.

Definition png_upload : Env :=
  with_media_type "image/png" (Ok "image/png") Example.happy.

Definition double_quote : string := String (Ascii.ascii_of_nat 34) EmptyString.

(** video/mp4 with a quoted codecs parameter listing two codecs. *)
Definition codecs_type : string :=
  "video/mp4; codecs=" +:+ double_quote +:+ "avc1,mp4a" +:+ double_quote.

Definition codecs_upload : Env :=
  with_media_type codecs_type (Ok "video/mp4") Example.happy.

(** The metadata store rejects the update. *)
Definition update_fails : Env :=
  Example.env (Ok "{...}") Example.landscape (None, Some "remuxed-bytes")
    None (Some "database is locked").

End Example2.

(** ** The thumbnail upload (the third source: [mimeCheckImage],
       [handlerUploadThumbnail]) *)

Module Thumbnail.

(** Modelled from the spec: [database.Video], as far as the thumbnail handler
    reads or writes it: id, owner, thumbnail URL (a [*string]) and updated-at
    timestamp. *)
Record Video : Type := mkVideo {
  ID : UUID;
  UserID : UUID;
  ThumbnailURL : option string;
  UpdatedAt : Z
}.

Definition zero_Video : Video := mkVideo uuid_Nil uuid_Nil None 0.

(** The fields of [apiConfig] that the handler reads. *)
Record Config : Type := mkConfig {
  assetsRoot : string;
  port : string
}.

(** What one thumbnail request observes from outside the handler. *)
Record Env : Type := mkEnv {
  r_PathValue : string;                          (* r.PathValue("videoID") *)
  uuid_Parse : string -> result UUID;
  auth_GetBearerToken : result string;
  auth_ValidateJWT : string -> result UUID;
  r_FormFile : result (string * string);         (* bytes, Content-Type header *)
  mime_ParseMediaType : string -> result string;
  rand_Read : list Byte.byte;
  filepath_Join : string -> string -> string;
  os_Create : string -> option error;
  io_Copy : string -> string * option error;     (* bytes written, copy error *)
  db_UpdateVideo : Video -> option error;
  time_Now : Z
}.

Inductive Event : Type :=
  | EvGetVideo (id : UUID)
  | EvCreate (name : string)
  | EvCopy (name : string) (ok : bool)
  | EvUpdateVideo (v : Video) (ok : bool)
  | EvRespond (code : Z).

(** The assets directory and the rest of the disk, the metadata store, and
    the effects of the request so far (oldest first). *)
Record World : Type := mkWorld {
  disk : gmap string string;
  videos : gmap UUID Video;
  trace : list Event
}.

Definition emit (e : Event) (w : World) : World :=
  mkWorld (disk w) (videos w) (trace w ++ [e])%list.

Definition initial (d : gmap string string) (v : gmap UUID Video) : World :=
  mkWorld d v [].

Fixpoint status (tr : list Event) : option Z :=
  match tr with
  | [] => None
  | EvRespond code :: _ => Some code
  | _ :: tr' => status tr'
  end.

(** Modelled from the spec: [respondWithError] and [respondWithJSON], one
    response with the given status each. *)
Definition respondWithError (code : Z) (msg : string) (w : World) : World :=
  emit (EvRespond code) w.
Definition respondWithJSON (code : Z) (w : World) : World :=
  emit (EvRespond code) w.

(** Modelled from the spec: [cfg.db.GetVideo], the record or not-found (with
    the zero record). *)
Definition db_GetVideo (id : UUID) (w : World) : (Video * option error) * World :=
  (match videos w !! id with
   | Some v => (v, None)
   | None => (zero_Video, Some "not found")
   end, emit (EvGetVideo id) w).

(** Modelled from the spec: [cfg.db.UpdateVideo], update-by-id. *)
Definition db_Update (env : Env) (v : Video) (w : World) : option error * World :=
  match db_UpdateVideo env v with
  | Some e => (Some e, emit (EvUpdateVideo v false) w)
  | None =>
      (None, emit (EvUpdateVideo v true)
               (mkWorld (disk w) (<[ID v := v]> (videos w)) (trace w)))
  end.

Definition mimeCheckImage (env : Env) (mimeType : string) : option error :=
  match mime_ParseMediaType env mimeType with
  | Err e => Some e
  | Ok m =>
      if String.eqb m "image/jpeg" then None
      else if String.eqb m "image/png" then None
      else Some "not supported mimetype"
  end.

(** [fmt.Sprintf("%s.%s", randFileName, ext)] *)
Definition assetPath_of (env : Env) (mediaType : string) : string :=
  Base64.RawURLEncoding_EncodeToString (rand_Read env) +:+ "." +:+ mimeToExt mediaType.

(** [fmt.Sprintf("http://localhost:%s/assets/%s", cfg.port, assetPath)] *)
Definition thumbnail_url (cfg : Config) (assetPath : string) : string :=
  "http://localhost:" +:+ port cfg +:+ "/assets/" +:+ assetPath.

Definition handlerUploadThumbnail (cfg : Config) (env : Env) (w : World)
  : World :=
  match uuid_Parse env (r_PathValue env) with
  | Err _ => respondWithError StatusBadRequest "Invalid ID" w
  | Ok videoID =>
  match auth_GetBearerToken env with
  | Err _ => respondWithError StatusUnauthorized "Couldn't find JWT" w
  | Ok token =>
  match auth_ValidateJWT env token with
  | Err _ => respondWithError StatusUnauthorized "Couldn't validate JWT" w
  | Ok userID =>
  match r_FormFile env with
  | Err _ => respondWithError StatusBadRequest "Unable to parse from file" w
  | Ok (bytes, mediaType) =>
  let '((video, err), w) := db_GetVideo videoID w in
  match err with
  | Some _ => respondWithError StatusBadRequest "Unable to get video" w
  | None =>
  if negb (N.eqb (UserID video) userID)
  then respondWithError StatusUnauthorized "not authorized" w
  else
  (* the answer to an unsupported type is written and execution continues *)
  let w := match mimeCheckImage env mediaType with
           | Some _ => respondWithError StatusBadRequest "" w
           | None => w
           end in
  let assetPath := assetPath_of env mediaType in
  let assetDiskPath := filepath_Join env (assetsRoot cfg) assetPath in
  match os_Create env assetDiskPath with
  | Some _ => respondWithError StatusInternalServerError "cannot create file" w
  | None =>
  let w := emit (EvCreate assetDiskPath)
             (mkWorld (<[assetDiskPath := EmptyString]> (disk w)) (videos w) (trace w)) in
  (* the answer to a failed copy is written and execution continues *)
  let '(written, copy_err) := io_Copy env bytes in
  let w := mkWorld (<[assetDiskPath := written]> (disk w)) (videos w) (trace w) in
  let w := match copy_err with
           | Some _ => respondWithError StatusInternalServerError
                         "cannot write to file" (emit (EvCopy assetDiskPath false) w)
           | None => emit (EvCopy assetDiskPath true) w
           end in
  let video := mkVideo (ID video) (UserID video)
                 (Some (thumbnail_url cfg assetPath)) (time_Now env) in
  match db_Update env video w with
  | (Some _, w) =>
      respondWithError StatusInternalServerError "cant update video thumbnail" w
  | (None, w) =>
      let '((_, err), w) := db_GetVideo videoID w in
      match err with
      | Some _ => respondWithError StatusBadRequest "Unable to get video" w
      | None => respondWithJSON StatusOK w
      end
  end end end end end end end.

End Thumbnail.

(** All execution paths of the thumbnail handler, one goal each. *)
Ltac thumbnail_paths :=
  unfold Thumbnail.handlerUploadThumbnail, Thumbnail.db_GetVideo,
    Thumbnail.db_Update, Thumbnail.mimeCheckImage, Thumbnail.respondWithError,
    Thumbnail.respondWithJSON, Thumbnail.emit, Thumbnail.initial;
  cbn [fst snd Thumbnail.disk Thumbnail.videos Thumbnail.trace];
  repeat (branch; cbn [fst snd Thumbnail.disk Thumbnail.videos Thumbnail.trace]).

Ltac thumbnail_run r :=
  let run := fresh "run" in
  let Hr := fresh "Hr" in
  let Q := fresh "Q" in
  remember r as run eqn:Hr; pattern run;
  match goal with |- ?P run => set (Q := P) end;
  revert Hr; thumbnail_paths; intros ->; subst Q;
  cbn beta; cbn [fst snd Thumbnail.disk Thumbnail.videos Thumbnail.trace app].

(** A thumbnail request of Alice for video 7, with the declared type and the
    result of the copy left open. *)
Module ThumbnailExample.

Definition cfg : Thumbnail.Config := Thumbnail.mkConfig "./assets" "8091".

Definition env (mediaType : string) (copy : string * option error)
  : Thumbnail.Env :=
  Thumbnail.mkEnv Example.video_path
    (fun s => if String.eqb s Example.video_path then Ok Example.video_id
              else Err "invalid UUID")
    (Ok "bearer-of-alice")
    (fun t => if String.eqb t "bearer-of-alice" then Ok Example.alice
              else Err "invalid token")
    (Ok ("image-bytes", mediaType))
    (fun s => if String.eqb s "image/png" then Ok "image/png"
              else if String.eqb s "text/html" then Ok "text/html"
              else Err "mime: unexpected content")
    (repeat Byte.x2a 32)
    (fun dir name => dir +:+ "/" +:+ name)
    (fun _ => None)
    (fun _ => copy)
    (fun _ => None)
    1700000000.

Definition store (owner : UUID) : gmap UUID Thumbnail.Video :=
  {[ Example.video_id := Thumbnail.mkVideo Example.video_id owner None 0 ]}.

End ThumbnailExample.

(** ** Facts about the integer/float conversions *)

Section Float64Exact.

Lemma digits2_pos_lower (p : positive) :
  2 ^ (Zpos (digits2_pos p) - 1) <= Zpos p.
Proof.
  induction p as [p IH | p IH |]; simpl digits2_pos.
  - rewrite Pos2Z.inj_succ.
    replace (Z.succ (Zpos (digits2_pos p)) - 1)
      with (Z.succ (Zpos (digits2_pos p) - 1)) by lia.
    rewrite Z.pow_succ_r by lia. lia.
  - rewrite Pos2Z.inj_succ.
    replace (Z.succ (Zpos (digits2_pos p)) - 1)
      with (Z.succ (Zpos (digits2_pos p) - 1)) by lia.
    rewrite Z.pow_succ_r by lia. lia.
  - simpl. lia.
Qed.

Lemma digits2_pos_iter_xO (p k : positive) :
  digits2_pos (Pos.iter xO p k) = (digits2_pos p + k)%positive.
Proof.
  induction k as [| k IH] using Pos.peano_ind.
  - simpl. lia.
  - rewrite Pos.iter_succ. simpl digits2_pos. rewrite IH. lia.
Qed.

Lemma Zpos_iter_xO (p k : positive) :
  Zpos (Pos.iter xO p k) = Zpos p * 2 ^ Zpos k.
Proof.
  induction k as [| k IH] using Pos.peano_ind.
  - simpl. lia.
  - rewrite Pos.iter_succ, Pos2Z.inj_xO, IH, Pos2Z.inj_succ.
    rewrite Z.pow_succ_r by lia. lia.
Qed.

Lemma digits2_pos_le_prec (p : positive) :
  Zpos p < 2 ^ 53 -> Zpos (digits2_pos p) <= 53.
Proof.
  intros Hp. pose proof (digits2_pos_lower p) as Hl.
  destruct (Z_le_gt_dec (Zpos (digits2_pos p)) 53) as [|Hgt]; [assumption|].
  assert (2 ^ 53 <= 2 ^ (Zpos (digits2_pos p) - 1))
    by (apply Z.pow_le_mono_r; lia).
  lia.
Qed.

(** An already canonical mantissa passes through the rounding unchanged. *)
Lemma binary_round_aux_canonical (m : positive) (e : Z) :
  Zpos (digits2_pos m) = 53 -> -1074 <= e <= 971 ->
  binary_round_aux 53 1024 false (Zpos m) e loc_Exact
  = S754_finite false m e.
Proof.
  intros Hd He.
  unfold binary_round_aux, shr_fexp, fexp, emin.
  simpl Zdigits2. rewrite Hd.
  replace (Z.max (53 + e - 53) (3 - 1024 - 53) - e) with 0 by lia.
  simpl. rewrite Hd.
  replace (Z.max (53 + e - 53) (3 - 1024 - 53) - e) with 0 by lia.
  simpl.
  destruct (Z.leb_spec e (1024 - 53)); [reflexivity | lia].
Qed.

(** [float64(n)] is exact below [2^53]: mantissa and exponent of the result. *)
Lemma of_int_pos_exact (p : positive) :
  Zpos p < 2 ^ 53 ->
  exists m e, F64.of_int (Zpos p) = S754_finite false m e
              /\ -52 <= e <= 0 /\ Zpos m = Zpos p * 2 ^ (- e).
Proof.
  intros Hp. pose proof (digits2_pos_le_prec p Hp) as Hd.
  unfold F64.of_int, binary_normalize, binary_round, shl_align.
  unfold F64.prec, F64.emax.
  assert (Hf : fexp 53 1024 (Zpos (digits2_pos p) + 0)
               = Zpos (digits2_pos p) - 53) by (unfold fexp, emin; lia).
  rewrite Hf, Z.sub_0_r.
  destruct (Zpos (digits2_pos p) - 53) as [| k | k] eqn:Hk; try lia.
  - exists p, 0.
    rewrite (binary_round_aux_canonical p 0) by lia.
    split; [reflexivity | split; [lia | simpl; lia]].
  - exists (Pos.iter xO p k), (Zneg k).
    rewrite binary_round_aux_canonical.
    + split; [reflexivity|]. split; [lia|].
      rewrite Zpos_iter_xO. reflexivity.
    + rewrite digits2_pos_iter_xO. lia.
    + lia.
Qed.

(** Round trip [int(float64(n)) = n] on [0 <= n < 2^53]. *)
Lemma to_int_of_int (n : Z) :
  0 <= n < 2 ^ 53 -> F64.to_int (F64.of_int n) = n.
Proof.
  intros [Hn0 Hn]. destruct n as [| p | p]; [reflexivity | | lia].
  destruct (of_int_pos_exact p Hn) as (m & e & -> & He & Hm).
  unfold F64.to_int.
  assert (Hmag : match e with
                 | Zneg q => Z.shiftr (Zpos m) (Zpos q)
                 | _ => Z.shiftl (Zpos m) e
                 end = Zpos p).
  { destruct e as [| q | q]; [| lia |].
    - rewrite Z.shiftl_0_r, Hm. simpl. lia.
    - rewrite Z.shiftr_div_pow2 by lia. rewrite Hm.
      replace (- Zneg q) with (Zpos q) by lia.
      apply Z.div_mul. apply Z.pow_nonzero; lia. }
  rewrite Hmag.
  unfold GoInt.min_int, GoInt.max_int.
  replace (- 2 ^ 63 <=? Zpos p) with true by (symmetry; apply Z.leb_le; lia).
  replace (Zpos p <=? 2 ^ 63 - 1) with true by (symmetry; apply Z.leb_le; lia).
  reflexivity.
Qed.

End Float64Exact.

(** ** Facts about the Euclid loop *)

Section Euclid.

Lemma gcd_iter_enough (n : nat) : forall a b m,
  (Z.abs_nat b < n)%nat -> (Z.abs_nat b < m)%nat ->
  gcd_iter n a b = gcd_iter m a b.
Proof.
  induction n as [| n IH]; intros a b m Hn Hm; [lia|].
  destruct m as [| m]; [lia|]. simpl.
  destruct (Z.eqb_spec b 0) as [|Hb]; [reflexivity|].
  pose proof (Z.rem_bound_abs a b Hb) as Hr. unfold GoInt.rem.
  apply IH; lia.
Qed.

(** The loop equation: one test of [b != 0] and one iteration. *)
Lemma gcd_loop_unfold (a b : Z) :
  gcd_loop a b = if b =? 0 then a else gcd_loop b (GoInt.rem a b).
Proof.
  unfold gcd_loop at 1. simpl.
  destruct (Z.eqb_spec b 0) as [|Hb]; [reflexivity|].
  pose proof (Z.rem_bound_abs a b Hb) as Hr. unfold GoInt.rem in *.
  unfold gcd_loop. apply gcd_iter_enough; lia.
Qed.

(** On non-negative operands the loop computes the greatest common divisor. *)
Lemma gcd_loop_gcd_bounded (n : nat) : forall a b,
  0 <= a -> 0 <= b -> b < Z.of_nat n -> gcd_loop a b = Z.gcd a b.
Proof.
  induction n as [| n IH]; intros a b Ha Hb Hn; [lia|].
  rewrite gcd_loop_unfold.
  destruct (Z.eqb_spec b 0) as [-> | Hb0].
  - rewrite Z.gcd_0_r, Z.abs_eq; lia.
  - unfold GoInt.rem. rewrite Z.rem_mod_nonneg by lia.
    pose proof (Z.mod_pos_bound a b ltac:(lia)) as Hm.
    rewrite IH by lia.
    rewrite Z.gcd_comm, Z.gcd_mod by lia. apply Z.gcd_comm.
Qed.

Lemma gcd_loop_gcd (a b : Z) :
  0 <= a -> 0 <= b -> gcd_loop a b = Z.gcd a b.
Proof.
  intros Ha Hb. apply (gcd_loop_gcd_bounded (S (Z.to_nat b))); lia.
Qed.

End Euclid.

(** ** The aspect classifier *)

Section Classifier.

Lemma wrap_small (z : Z) : - 2 ^ 63 <= z < 2 ^ 63 -> GoInt.wrap z = z.
Proof.
  intros Hz. unfold GoInt.wrap.
  rewrite Z.mod_small by lia. lia.
Qed.

Lemma quo_exact (x g : Z) :
  0 <= x < 2 ^ 53 -> 0 < g -> GoInt.quo x g = Returned (x / g).
Proof.
  intros Hx Hg. unfold GoInt.quo.
  destruct (Z.eqb_spec g 0) as [|_]; [lia|].
  rewrite Z.quot_div_nonneg by lia.
  assert (0 <= x / g) by (apply Z.div_pos; lia).
  assert (x / g <= x) by (apply Z.div_le_upper_bound; nia).
  rewrite wrap_small; [reflexivity|].
  assert (2 ^ 53 < 2 ^ 63) by (apply Z.pow_lt_mono_r; lia). lia.
Qed.

(** The [default] branch on exactly representable, non-negative dimensions
    that are not both zero. *)
Lemma reduced_fraction_exact (width height : Z) :
  0 <= width < 2 ^ 53 -> 0 <= height < 2 ^ 53 -> 0 < Z.gcd width height ->
  reduced_fraction (F64.of_int width) (F64.of_int height)
  = Returned (GoInt.itoa (width / Z.gcd width height) +:+ ":"
              +:+ GoInt.itoa (height / Z.gcd width height)).
Proof.
  intros Hw Hh Hg. unfold reduced_fraction.
  rewrite !to_int_of_int by assumption.
  rewrite gcd_loop_gcd by lia.
  rewrite !quo_exact by assumption. reflexivity.
Qed.

Lemma reduced_fraction_zero :
  reduced_fraction (F64.of_int 0) (F64.of_int 0) = Panicked divide_by_zero.
Proof. reflexivity. Qed.

End Classifier.

(** ** Positive integers stay non-zero through [float64] *)

Section Float64Positive.

Lemma digits2_pos_upper (p : positive) :
  Zpos p < 2 ^ Zpos (digits2_pos p).
Proof.
  induction p as [p IH | p IH |]; simpl digits2_pos;
    rewrite ?Pos2Z.inj_succ, ?Z.pow_succ_r by lia; lia.
Qed.

Lemma shr_1_m (mrs : shr_record) :
  0 <= shr_m mrs -> shr_m (shr_1 mrs) = shr_m mrs / 2.
Proof.
  destruct mrs as [m r s]. cbn [shr_m]. intros Hm.
  destruct m as [| [p | p |] | p]; cbn [shr_1 shr_m];
    [ reflexivity
    | rewrite Pos2Z.inj_xI; apply Z.div_unique with (r := 1); lia
    | rewrite Pos2Z.inj_xO; apply Z.div_unique with (r := 0); lia
    | reflexivity
    | lia ].
Qed.

Lemma shr_iter_m (k : positive) : forall mrs,
  0 <= shr_m mrs -> shr_m (SpecFloat.iter_pos shr_1 k mrs) = shr_m mrs / 2 ^ Zpos k.
Proof.
  assert (Hhalf : forall mrs, 0 <= shr_m mrs -> 0 <= shr_m (shr_1 mrs))
    by (intros mrs Hm; rewrite shr_1_m by lia; apply Z.div_pos; lia).
  induction k as [k IH | k IH |]; intros mrs Hm; cbn [SpecFloat.iter_pos].
  - assert (H1 : 0 <= shr_m (shr_1 mrs)) by auto.
    assert (H2 : 0 <= shr_m (SpecFloat.iter_pos shr_1 k (shr_1 mrs)))
      by (rewrite IH by lia; apply Z.div_pos; lia).
    rewrite IH, IH, shr_1_m by lia.
    rewrite !Z.div_div by lia. f_equal.
    replace (Zpos k~1) with (Zpos k + Zpos k + 1) by lia.
    rewrite !Z.pow_add_r by lia. lia.
  - assert (H2 : 0 <= shr_m (SpecFloat.iter_pos shr_1 k mrs))
      by (rewrite IH by lia; apply Z.div_pos; lia).
    rewrite IH, IH by lia.
    rewrite !Z.div_div by lia. f_equal.
    replace (Zpos k~0) with (Zpos k + Zpos k) by lia.
    rewrite !Z.pow_add_r by lia. lia.
  - rewrite shr_1_m by lia. reflexivity.
Qed.

Lemma shr_record_of_loc_m (m : Z) (l : location) :
  shr_m (shr_record_of_loc m l) = m.
Proof. destruct l as [| []]; reflexivity. Qed.

(** Shifting a positive mantissa at a non-negative exponent keeps the
    mantissa positive and does not lower the exponent. *)
Lemma shr_fexp_positive (m : positive) (e : Z) (l : location) :
  0 <= e ->
  0 < shr_m (fst (shr_fexp 53 1024 (Zpos m) e l))
  /\ e <= snd (shr_fexp 53 1024 (Zpos m) e l).
Proof.
  intros He. unfold shr_fexp, shr, fexp, emin. cbn [Zdigits2].
  pose proof (digits2_pos_lower m) as Hlow.
  destruct (Z.max (Zpos (digits2_pos m) + e - 53) (3 - 1024 - 53) - e)
    as [| k | k] eqn:Hk; cbn [fst snd]; rewrite ?shr_record_of_loc_m;
    try (split; lia).
  rewrite shr_iter_m by (rewrite shr_record_of_loc_m; lia).
  rewrite shr_record_of_loc_m. split; [| lia].
  assert (Hkd : Zpos k = Zpos (digits2_pos m) - 53) by lia.
  assert (2 ^ Zpos k <= Zpos m).
  { transitivity (2 ^ (Zpos (digits2_pos m) - 1)); [| assumption].
    apply Z.pow_le_mono_r; lia. }
  apply Z.div_str_pos. split; [apply Z.pow_pos_nonneg; lia | assumption].
Qed.

Lemma round_nearest_even_ge (m : Z) (l : location) :
  m <= round_nearest_even m l.
Proof.
  destruct l as [| []]; cbn [round_nearest_even]; try lia.
  destruct (Z.even m); lia.
Qed.

Lemma to_int_nonneg_exponent (m : positive) (e : Z) :
  0 <= e -> F64.to_int (S754_finite false m e) <> 0.
Proof.
  intros He. unfold F64.to_int.
  assert (Hmag : match e with
                 | Zneg p => Z.shiftr (Zpos m) (Zpos p)
                 | _ => Z.shiftl (Zpos m) e
                 end = Zpos m * 2 ^ e).
  { destruct e as [| q | q]; [| | lia]; rewrite Z.shiftl_mul_pow2; lia. }
  rewrite Hmag.
  assert (0 < Zpos m * 2 ^ e) by (apply Z.mul_pos_pos; [lia | apply Z.pow_pos_nonneg; lia]).
  destruct (_ && _); [lia | unfold GoInt.min_int; lia].
Qed.

Lemma binary_round_aux_nonzero (m : positive) (e : Z) (l : location) :
  0 <= e ->
  F64.to_int (binary_round_aux 53 1024 false (Zpos m) e l) <> 0.
Proof.
  intros He. unfold binary_round_aux.
  destruct (shr_fexp_positive m e l He) as [Hm1 He1].
  destruct (shr_fexp 53 1024 (Zpos m) e l) as [mrs1 e1]. cbn [fst snd] in *.
  pose proof (round_nearest_even_ge (shr_m mrs1) (loc_of_shr_record mrs1)) as Hr.
  destruct (round_nearest_even (shr_m mrs1) (loc_of_shr_record mrs1))
    as [| m2 | m2] eqn:Hm2; try lia.
  destruct (shr_fexp_positive m2 e1 loc_Exact ltac:(lia)) as [Hm3 He3].
  destruct (shr_fexp 53 1024 (Zpos m2) e1 loc_Exact) as [mrs3 e3].
  cbn [fst snd] in *.
  destruct (shr_m mrs3) as [| m3 | m3]; try lia.
  destruct (Z.leb e3 (1024 - 53)).
  - apply to_int_nonneg_exponent. lia.
  - cbn. unfold GoInt.min_int. lia.
Qed.

(** A positive integer never converts to a float that truncates to zero. *)
Lemma to_int_of_int_nonzero (n : Z) :
  0 < n -> F64.to_int (F64.of_int n) <> 0.
Proof.
  intros Hn. destruct (Z_lt_le_dec n (2 ^ 53)) as [Hsmall | Hbig].
  - rewrite to_int_of_int by lia. lia.
  - destruct n as [| p | p]; try lia.
    pose proof (digits2_pos_upper p) as Hup.
    assert (Hd : 53 < Zpos (digits2_pos p)).
    { destruct (Z_lt_le_dec 53 (Zpos (digits2_pos p))) as [|Hle]; [assumption|].
      assert (2 ^ Zpos (digits2_pos p) <= 2 ^ 53)
        by (apply Z.pow_le_mono_r; lia).
      lia. }
    unfold F64.of_int, binary_normalize, binary_round, shl_align.
    unfold F64.prec, F64.emax.
    assert (Hf : fexp 53 1024 (Zpos (digits2_pos p) + 0)
                 = Zpos (digits2_pos p) - 53) by (unfold fexp, emin; lia).
    rewrite Hf, Z.sub_0_r.
    destruct (Zpos (digits2_pos p) - 53) as [| k | k] eqn:Hk; try lia.
    apply binary_round_aux_nonzero. lia.
Qed.

End Float64Positive.

(** ** The divisor of the reduced fraction *)

Section EuclidZero.

Lemma gcd_iter_zero (n : nat) : forall a b,
  gcd_iter n a b = 0 -> (Z.abs_nat b < n)%nat -> a = 0 /\ b = 0.
Proof.
  induction n as [| n IH]; intros a b Hg Hn; [lia|].
  simpl in Hg. destruct (Z.eqb_spec b 0) as [Hb0 | Hb]; [subst; auto|].
  pose proof (Z.rem_bound_abs a b Hb) as Hr. unfold GoInt.rem in *.
  destruct (IH _ _ Hg ltac:(lia)) as [-> _]. done.
Qed.

(** The loop leaves a zero only when it started from two zeros. *)
Lemma gcd_loop_zero (a b : Z) : gcd_loop a b = 0 -> a = 0 /\ b = 0.
Proof. intros Hg. apply (gcd_iter_zero _ _ _ Hg). lia. Qed.

Lemma reduced_fraction_returns (w h : F64.t) :
  F64.to_int w <> 0 \/ F64.to_int h <> 0 ->
  exists class, reduced_fraction w h = Returned class.
Proof.
  intros Hnz. unfold reduced_fraction, GoInt.quo.
  destruct (Z.eqb_spec (gcd_loop (F64.to_int w) (F64.to_int h)) 0) as [Hg | _].
  - apply gcd_loop_zero in Hg. lia.
  - eauto.
Qed.

End EuclidZero.




(** The three constants as binary64 values: mantissa and exponent. *)
Example float64_constants :
  epsilon = S754_finite false 5764607523034235 (-58)
  /\ sixteen_ninths = S754_finite false 8006399337547548 (-52)
  /\ nine_sixteenths = S754_finite false 5066549580791808 (-53).
Proof. vm_compute. repeat split; reflexivity. Qed.

(** On small dimensions the float64 tests coincide with the exact ones (here
    all pairs up to 64 x 64), as they do on the usual video geometries. *)
Example tolerance_agrees_with_exact :
  forallb (fun w => forallb (fun h => tests_agree (Z.of_nat w) (Z.of_nat h))
                            (seq 1 64)) (seq 1 64) = true
  /\ forallb (fun wh => tests_agree (fst wh) (snd wh))
       [(1280, 720); (1920, 1080); (3840, 2160); (7680, 4320);
        (720, 1280); (1080, 1920); (2160, 3840); (640, 480); (1000, 500)]
     = true.
Proof. vm_compute. split; reflexivity. Qed.

(** At the rim of the tolerance the test is the float64 one: 791/450 and
    809/450 both lie at distance exactly 0.02 from 16/9, and the first is
    classified as "16:9". *)
Example tolerance_is_float64 :
  classify 791 450 = Returned "16:9" /\ exact_near_16_9 791 450 = false
  /\ classify 809 450 = Returned "809:450" /\ exact_near_16_9 809 450 = false.
Proof. vm_compute. repeat split; reflexivity. Qed.

(** C10. A first stream of width 0 and height 0 makes the classifier divide
    by gcd(0,0) = 0: it panics with an integer division by zero and returns
    neither a class nor an error; on every other pair of non-negative
    dimensions the classifier returns a class. *)
Theorem classifier_zero_division (width height : Z) (rest : list Stream)
  (Hw : 0 <= width) (Hh : 0 <= height) :
  aspect_of_streams ({| Width := 0; Height := 0 |} :: rest)
  = Panicked divide_by_zero
  /\ (aspect_of_streams ({| Width := width; Height := height |} :: rest)
      = Panicked divide_by_zero <-> width = 0 /\ height = 0)
  /\ ((exists class,
         aspect_of_streams ({| Width := width; Height := height |} :: rest)
         = Returned class) <-> ~ (width = 0 /\ height = 0)).
Proof.
  assert (Hz : classify 0 0 = Panicked divide_by_zero) by (vm_compute; reflexivity).
  assert (Hnz : ~ (width = 0 /\ height = 0) ->
                exists class, classify width height = Returned class).
  { intros Hne. unfold classify.
    destruct (within_epsilon _ sixteen_ninths); [eauto|].
    destruct (within_epsilon _ nine_sixteenths); [eauto|].
    apply reduced_fraction_returns.
    destruct (Z.eq_dec width 0) as [Hw0 | Hw0].
    - right. apply to_int_of_int_nonzero. lia.
    - left. apply to_int_of_int_nonzero. lia. }
  unfold aspect_of_streams. cbn [Width Height].
  split; [exact Hz|]. split; split.
  - intros Hp.
    destruct (Z.eq_dec width 0) as [Hw0 | Hw0];
      [destruct (Z.eq_dec height 0) as [Hh0 | Hh0]; [auto|] |];
      (destruct Hnz as [c Hc]; [lia | congruence]).
  - intros [-> ->]. exact Hz.
  - intros [c Hc] [-> ->]. congruence.
  - exact Hnz.
Qed.

Lemma classifier_zero_division_witness :
  (0 <= 0) /\ (0 <= 7)
  /\ exists class,
       aspect_of_streams [{| Width := 0; Height := 7 |}] = Returned class.
Proof.
  split; [lia|]. split; [lia|].
  apply (proj2 (proj2 (classifier_zero_division 0 7 [] ltac:(lia) ltac:(lia)))).
  lia.
Defined.

(** A probe that reports a first stream without dimensions: the handler
    panics inside the classifier, no response is written, and the deferred
    removal of the staged file still runs. *)
Example stream_without_dimensions :
  let r := FastStart.handlerUploadVideo Example.cfg Example.no_dimensions
             (initial ∅ ∅ (Example.store Example.alice)) in
  fst r = Panicked divide_by_zero
  /\ status (trace (snd r)) = None
  /\ disk (snd r) !! Example.temp_name = None.
Proof. vm_compute. repeat split; reflexivity. Qed.

(** ** Splitting and counting *)

Section Strings.

Variable sep : ascii.

Lemma count_char_append (a b : string) :
  count_char sep (a +:+ b) = (count_char sep a + count_char sep b)%nat.
Proof. induction a as [| x a IH]; simpl; [reflexivity | rewrite IH; lia]. Qed.

Lemma Split_nonempty (s : string) : Split sep s <> [].
Proof.
  destruct s as [| x s]; simpl; [discriminate|].
  destruct (Ascii.eqb x sep); [discriminate|].
  destruct (Split sep s); discriminate.
Qed.

(** One more component than separators. *)
Lemma Split_length (s : string) :
  length (Split sep s) = S (count_char sep s).
Proof.
  induction s as [| x s IH]; simpl; [reflexivity|].
  destruct (Ascii.eqb x sep); simpl; [by rewrite IH|].
  destruct (Split sep s); simpl in *; [discriminate | assumption].
Qed.

(** No component contains the separator. *)
Lemma Split_parts_clean (s : string) :
  Forall (fun part => count_char sep part = O) (Split sep s).
Proof.
  induction s as [| x s IH]; simpl.
  - by constructor.
  - destruct (Ascii.eqb x sep) eqn:Hx.
    + by constructor.
    + destruct (Split sep s) as [| part parts]; simpl.
      * constructor; [simpl; by rewrite Hx | constructor].
      * inversion IH as [| ? ? Hp Hps]; subst.
        constructor; [simpl; rewrite Hx; exact Hp | exact Hps].
Qed.

Lemma Split_clean (s : string) :
  count_char sep s = O -> Split sep s = [s].
Proof.
  induction s as [| x s IH]; simpl; [reflexivity|].
  destruct (Ascii.eqb x sep); [discriminate|].
  intros Hs. by rewrite IH.
Qed.

(** The components of [a ++ sep ++ b] end with the components of [b]. *)
Lemma Split_append (a b : string) :
  exists front, front <> []
    /\ Split sep (a +:+ String sep b) = (front ++ Split sep b)%list.
Proof.
  induction a as [| x a (front & Hne & IH)]; simpl.
  - rewrite Ascii.eqb_refl. by exists [EmptyString].
  - destruct (Ascii.eqb x sep).
    + exists (EmptyString :: front). split; [discriminate|]. by rewrite IH.
    + rewrite IH. destruct front as [| part parts]; [done|].
      exists (String x part :: parts). split; [discriminate | reflexivity].
Qed.

Lemma last_Split_append (a b : string) :
  List.last (Split sep (a +:+ String sep b)) EmptyString
  = List.last (Split sep b) EmptyString.
Proof.
  destruct (Split_append a b) as (front & _ & ->).
  pose proof (Split_nonempty b) as Hb.
  destruct (exists_last Hb) as (init & z & ->).
  by rewrite app_assoc, !last_last.
Qed.

(** Joining the components back gives the string: the two-component case. *)
Lemma Split_two (s a b : string) :
  Split sep s = [a; b] -> s = a +:+ String sep b.
Proof.
  revert a. induction s as [| x s IH]; intros a; simpl; [discriminate|].
  destruct (Ascii.eqb_spec x sep) as [-> | Hx].
  - intros Hs. injection Hs as <- Hs. simpl.
    pose proof (Split_length s) as Hl. rewrite Hs in Hl. simpl in Hl.
    rewrite (Split_clean s) in Hs by lia. by injection Hs as ->.
  - destruct (Split sep s) as [| part parts] eqn:Hs; [discriminate|].
    intros Heq. injection Heq as <- ->. by rewrite (IH part eq_refl).
Qed.

End Strings.

Section Base64Facts.

Lemma enc_not_slash (i : Z) : Base64.enc i <> "/"%char.
Proof.
  unfold Base64.enc.
  destruct (nth_in_or_default (Z.to_nat (Z.land i 63)) Base64.encodeURL "A"%char)
    as [Hin | ->]; [| discriminate].
  revert Hin. generalize (nth (Z.to_nat (Z.land i 63)) Base64.encodeURL "A"%char).
  intros c Hin Hc. subst c. vm_compute in Hin.
  repeat (destruct Hin as [Hin | Hin]; [discriminate Hin|]). exact Hin.
Qed.

Lemma count_slash_cons (c : ascii) (s : string) :
  c <> "/"%char -> count_char "/" (String c s) = count_char "/" s.
Proof.
  intros Hc. simpl. destruct (Ascii.eqb_spec c "/"%char); [done | reflexivity].
Qed.

(** The token never contains a slash. *)
Lemma encode_no_slash (src : list Byte.byte) :
  count_char "/" (Base64.RawURLEncoding_EncodeToString src) = O.
Proof.
  unfold Base64.RawURLEncoding_EncodeToString.
  assert (H : forall n (l : list Byte.byte), (length l < n)%nat ->
              count_char "/" (Base64.encode l) = O).
  { induction n as [| n IH]; intros l Hl; [lia|].
    destruct l as [| b0 [| b1 [| b2 rest]]]; cbn [Base64.encode];
      rewrite ?count_slash_cons by apply enc_not_slash; try reflexivity.
    apply IH. simpl in Hl. lia. }
  apply (H (S (length src))). lia.
Qed.

(** 32 bytes encode to 43 characters. *)
Lemma encode_length (src : list Byte.byte) :
  String.length (Base64.encode src)
  = ((4 * length src + 2) / 3)%nat.
Proof.
  assert (H : forall n (l : list Byte.byte), (length l < n)%nat ->
              String.length (Base64.encode l) = ((4 * length l + 2) / 3)%nat).
  { induction n as [| n IH]; intros l Hl; [lia|].
    destruct l as [| b0 [| b1 [| b2 rest]]]; cbn [Base64.encode String.length];
      try reflexivity.
    rewrite IH by (simpl in Hl; lia). cbn [length].
    replace (4 * S (S (S (length rest))) + 2)%nat
      with (4 * length rest + 2 + 4 * 3)%nat by lia.
    rewrite Nat.div_add by lia. lia. }
  apply (H (S (length src))). lia.
Qed.

End Base64Facts.

Section Extension.

Lemma split_at_last (sep : ascii) (s : string) :
  count_char sep s <> O ->
  exists a b, s = a +:+ String sep b /\ count_char sep b = O.
Proof.
  induction s as [| x s IH]; simpl; [done|].
  destruct (Nat.eq_dec (count_char sep s) O) as [Hz | Hnz].
  - destruct (Ascii.eqb_spec x sep) as [-> | _]; [| lia].
    intros _. by exists EmptyString, s.
  - intros _. destruct (IH Hnz) as (a & b & -> & Hb).
    by exists (String x a), b.
Qed.

(** [mimeToExt] returns what follows the last slash, or the whole string
    when there is no slash. *)
Lemma mimeToExt_spec (mimeType : string) :
  count_char "/" (mimeToExt mimeType) = O
  /\ ((count_char "/" mimeType = O /\ mimeToExt mimeType = mimeType)
      \/ exists ty, mimeType = ty +:+ "/" +:+ mimeToExt mimeType).
Proof.
  unfold mimeToExt.
  destruct (Nat.eq_dec (count_char "/" mimeType) O) as [Hz | Hnz].
  - rewrite Split_clean by assumption. simpl. auto.
  - destruct (split_at_last "/" mimeType Hnz) as (a & b & -> & Hb).
    rewrite last_Split_append, Split_clean by assumption. simpl.
    split; [assumption|]. right. by exists a.
Qed.


End Extension.



(** C8. [processVideoForFastStart] returns an error exactly when the ffmpeg
    run fails, or no file is at the work path once it has ended, or the file
    there is empty; otherwise it returns the work path, which then holds a
    non-empty file. *)
Theorem remux_fails_exactly_when (env : Env) (filePath : string) (w : World) :
  let workFile := workFile_of filePath in
  let run_error := fst (ffmpeg env filePath (disk w !! filePath)) in
  let after := disk (after_ffmpeg env filePath w) in
  let r := processVideoForFastStart env filePath w in
  ((exists e, fst r = Err e)
   <-> (run_error <> None \/ after !! workFile = None
        \/ after !! workFile = Some EmptyString))
  /\ (forall p, fst r = Ok p ->
        p = workFile /\ run_error = None
        /\ exists bytes, disk (snd r) !! p = Some bytes
                         /\ (0 < String.length bytes)%nat).
Proof.
  intros workFile run_error after r.
  unfold r, processVideoForFastStart. fold workFile run_error after.
  destruct run_error as [e|] eqn:Hrun; cbn [fst snd].
  - split; [| intros p Hp; discriminate Hp].
    split; [intros _; left; discriminate | intros _; eauto].
  - destruct (after !! workFile) as [bytes|] eqn:Hstat; cbn [fst snd].
    + destruct bytes as [| c bytes]; cbn [fst snd String.length Z.eqb Z.of_nat].
      * split; [| intros p Hp; discriminate Hp].
        split; [intros _; auto | intros _; eauto].
      * cbn. split.
        -- split; [intros [e He]; discriminate He|].
           intros [H | [H | H]]; [done | discriminate H | discriminate H].
        -- intros p Hp. injection Hp as <-. split; [reflexivity|].
           split; [reflexivity|]. exists (String c bytes).
           split; [exact Hstat | simpl; lia].
    + split; [| intros p Hp; discriminate Hp].
      split; [intros _; auto | intros _; eauto].
Qed.

Lemma remux_fails_exactly_when_witness :
  "/tmp/tubely-temp-upload.mp4104729.processing" = workFile_of Example.temp_name
  /\ exists bytes,
       disk (snd (processVideoForFastStart Example.happy Example.temp_name
                    Example.staged))
         !! "/tmp/tubely-temp-upload.mp4104729.processing" = Some bytes
       /\ (0 < String.length bytes)%nat.
Proof.
  destruct (proj2 (remux_fails_exactly_when Example.happy Example.temp_name
                     Example.staged)
              "/tmp/tubely-temp-upload.mp4104729.processing"
              ltac:(vm_compute; reflexivity))
    as (Hp & _ & Hb).
  split; [exact Hp | exact Hb].
Defined.

(** C9. [dbVideoToSignedVideo] fails with the locator-format error unless
    the stored locator splits on "," into exactly two components, bucket and
    key (a nil locator fails as well); when it does, the signer is asked for
    a URL valid for exactly 15 minutes and its answer replaces the locator in
    the returned copy; the disk, the object store and the metadata store are
    left as they were. *)
Theorem signed_url_accessor (env : Env) (video : Video) (w : World) :
  let r := dbVideoToSignedVideo env video w in
  (disk (snd r) = disk w /\ objects (snd r) = objects w
   /\ videos (snd r) = videos w)
  /\ (VideoURL video = None -> r = (Err "video URL is nil", w))
  /\ (forall url, VideoURL video = Some url ->
        length (Split "," url) <> 2%nat ->
        r = (Err "invalid video URL format", w))
  /\ (forall url, VideoURL video = Some url ->
        length (Split "," url) = 2%nat ->
        exists bucket key,
          url = bucket +:+ "," +:+ key
          /\ trace (snd r)
             = (trace w ++ [EvPresign bucket key (15 * 60 * 1000000000)])%list
          /\ fst r
             = match s3_PresignGetObject env bucket key (15 * 60 * 1000000000) with
               | Ok signed =>
                   Ok (mkVideo (ID video) (UserID video) (Some signed)
                               (UpdatedAt video))
               | Err e => Err e
               end).
Proof.
  cbn zeta. unfold dbVideoToSignedVideo, generatePresignedURL.
  destruct (VideoURL video) as [url|] eqn:Hurl.
  - destruct (Split "," url) as [| bucket [| key [| extra parts]]] eqn:Hsplit.
    + repeat split; try done. intros ? [= <-]. rewrite Hsplit. done.
    + repeat split; try done. intros ? [= <-]. rewrite Hsplit. done.
    + change (15 * time_Minute) with (15 * 60 * 1000000000).
      split; [destruct (s3_PresignGetObject env bucket key _); done|].
      split; [done|]. split.
      * intros ? [= <-]. rewrite Hsplit. done.
      * intros ? [= <-] _. exists bucket, key.
        split; [exact (Split_two "," url bucket key Hsplit)|].
        destruct (s3_PresignGetObject env bucket key _); done.
    + repeat split; try done. intros ? [= <-]. rewrite Hsplit. done.
  - repeat split; done.
Qed.

Lemma signed_url_accessor_witness :
  let video := mkVideo 7%N 1%N (Some "tubely-media,landscape/abc.mp4") 0 in
  let r := dbVideoToSignedVideo Example.happy video Example.staged in
  exists bucket key,
    "tubely-media,landscape/abc.mp4" = bucket +:+ "," +:+ key
    /\ trace (snd r) = [EvPresign bucket key 900000000000]
    /\ fst r = Ok (mkVideo 7%N 1%N
                     (Some ("https://" +:+ bucket +:+ "/" +:+ key +:+ "?signed")) 0).
Proof.
  exact (proj2 (proj2 (proj2
           (signed_url_accessor Example.happy
              (mkVideo 7%N 1%N (Some "tubely-media,landscape/abc.mp4") 0)
              Example.staged)))
           "tubely-media,landscape/abc.mp4" eq_refl eq_refl).
Defined.

(** ** Ownership check and video lookup *)

Section Lookup.

Variables (cfg : apiConfig) (env : Env).
Variables (d : gmap string string) (o : gmap (string * string) string)
          (v : gmap UUID Video).
Variables (token : string) (userID id : UUID).

Hypothesis Htoken : auth_GetBearerToken env = Ok token.
Hypothesis Hjwt : auth_ValidateJWT env token = Ok userID.
Hypothesis Hid : uuid_Parse env (url_Base env) = Some id.

(** Both handlers compare the owner before they look at the lookup error. *)
Lemma not_owner_Direct (video : Video) (err : option error) :
  fst (db_GetVideo id (initial d o v)) = (video, err) ->
  UserID video <> userID ->
  Direct.handlerUploadVideo cfg env (initial d o v)
  = (Returned tt, mkWorld d o v [EvGetVideo id; EvRespond StatusUnauthorized]).
Proof.
  intros Hget Hne. unfold Direct.handlerUploadVideo.
  rewrite Htoken, Hjwt, Hid.
  unfold db_GetVideo in *. cbn [fst snd initial videos] in *.
  destruct (v !! id) as [v0|]; injection Hget as <- <-.
  - destruct (N.eqb_spec (UserID v0) userID); [done | reflexivity].
  - destruct (N.eqb_spec (UserID zero_Video) userID); [done | reflexivity].
Qed.

Lemma not_owner_FastStart (video : Video) (err : option error) :
  fst (db_GetVideo id (initial d o v)) = (video, err) ->
  UserID video <> userID ->
  FastStart.handlerUploadVideo cfg env (initial d o v)
  = (Returned tt, mkWorld d o v [EvGetVideo id; EvRespond StatusUnauthorized]).
Proof.
  intros Hget Hne. unfold FastStart.handlerUploadVideo.
  rewrite Htoken, Hjwt, Hid.
  unfold db_GetVideo in *. cbn [fst snd initial videos] in *.
  destruct (v !! id) as [v0|]; injection Hget as <- <-.
  - destruct (N.eqb_spec (UserID v0) userID); [done | reflexivity].
  - destruct (N.eqb_spec (UserID zero_Video) userID); [done | reflexivity].
Qed.

End Lookup.


(** C7. A request whose authenticated principal differs from the owner
    recorded in the target video's record is answered with unauthorized by
    both handlers; the only effect before the answer is the lookup: no
    temporary file is created, nothing is put to the object store and the
    metadata store is not written. *)
Theorem owner_mismatch_rejected (cfg : apiConfig) (env : Env)
  (d : gmap string string) (o : gmap (string * string) string)
  (v : gmap UUID Video) (token : string) (userID id : UUID) (video : Video)
  (Htoken : auth_GetBearerToken env = Ok token)
  (Hjwt : auth_ValidateJWT env token = Ok userID)
  (Hid : uuid_Parse env (url_Base env) = Some id)
  (Hvideo : v !! id = Some video)
  (Howner : UserID video <> userID) :
  Direct.handlerUploadVideo cfg env (initial d o v)
  = (Returned tt, mkWorld d o v [EvGetVideo id; EvRespond StatusUnauthorized])
  /\ FastStart.handlerUploadVideo cfg env (initial d o v)
     = (Returned tt, mkWorld d o v [EvGetVideo id; EvRespond StatusUnauthorized]).
Proof.
  assert (Hget : fst (db_GetVideo id (initial d o v)) = (video, None))
    by (unfold db_GetVideo; cbn; by rewrite Hvideo).
  split.
  - eapply not_owner_Direct; eauto.
  - eapply not_owner_FastStart; eauto.
Qed.

Lemma owner_mismatch_rejected_witness :
  let w0 := initial ∅ ∅ (Example.store Example.bob) in
  Direct.handlerUploadVideo Example.cfg Example.happy w0
  = (Returned tt,
     mkWorld ∅ ∅ (Example.store Example.bob)
       [EvGetVideo Example.video_id; EvRespond StatusUnauthorized])
  /\ FastStart.handlerUploadVideo Example.cfg Example.happy w0
     = (Returned tt,
        mkWorld ∅ ∅ (Example.store Example.bob)
          [EvGetVideo Example.video_id; EvRespond StatusUnauthorized]).
Proof.
  apply (owner_mismatch_rejected Example.cfg Example.happy ∅ ∅
           (Example.store Example.bob) "bearer-of-alice" Example.alice
           Example.video_id
           (mkVideo Example.video_id Example.bob None 0));
    [reflexivity | reflexivity | reflexivity | vm_compute; reflexivity | discriminate].
Defined.

(** C2. When the metadata store has no record for the video id, both
    handlers answer unauthorized, not not-found: the owner comparison runs on
    the zero record returned with the error, before the error is examined. *)
Theorem unknown_video_unauthorized (cfg : apiConfig) (env : Env)
  (d : gmap string string) (o : gmap (string * string) string)
  (v : gmap UUID Video) (token : string) (userID id : UUID)
  (Htoken : auth_GetBearerToken env = Ok token)
  (Hjwt : auth_ValidateJWT env token = Ok userID)
  (Hid : uuid_Parse env (url_Base env) = Some id)
  (Hmissing : v !! id = None)
  (Huser : userID <> uuid_Nil) :
  let w1 := snd (Direct.handlerUploadVideo cfg env (initial d o v)) in
  let w2 := snd (FastStart.handlerUploadVideo cfg env (initial d o v)) in
  (snd (fst (db_GetVideo id (initial d o v))) <> None)
  /\ status (trace w1) = Some StatusUnauthorized
  /\ status (trace w2) = Some StatusUnauthorized
  /\ status (trace w1) <> Some StatusNotFound
  /\ status (trace w2) <> Some StatusNotFound.
Proof.
  assert (Hget : fst (db_GetVideo id (initial d o v))
                 = (zero_Video, Some "not found"))
    by (unfold db_GetVideo; cbn; by rewrite Hmissing).
  assert (Hne : UserID zero_Video <> userID) by (cbn; congruence).
  cbn zeta.
  rewrite (not_owner_Direct cfg env d o v token userID id Htoken Hjwt Hid _ _ Hget Hne).
  rewrite (not_owner_FastStart cfg env d o v token userID id Htoken Hjwt Hid _ _ Hget Hne).
  rewrite Hget. cbn. repeat split; discriminate.
Qed.

Lemma unknown_video_unauthorized_witness :
  let w0 := initial ∅ ∅ ∅ in
  status (trace (snd (Direct.handlerUploadVideo Example.cfg Example.happy w0)))
  = Some StatusUnauthorized
  /\ status (trace (snd (FastStart.handlerUploadVideo Example.cfg Example.happy w0)))
     = Some StatusUnauthorized.
Proof.
  pose proof (unknown_video_unauthorized Example.cfg Example.happy ∅ ∅ ∅
                "bearer-of-alice" Example.alice Example.video_id
                eq_refl eq_refl eq_refl eq_refl ltac:(discriminate)) as H.
  exact (conj (proj1 (proj2 H)) (proj1 (proj2 (proj2 H)))).
Defined.

(** ** Effect logs *)

Section Logs.

Lemma updates_guarded_sound (tr : list Event) : forall seen,
  updates_guarded seen tr = true ->
  forall pre u ok post, tr = (pre ++ EvUpdateVideo u ok :: post)%list ->
    seen = true \/ exists input, EvPutObject input true ∈ pre.
Proof.
  induction tr as [| e tr IH]; intros seen Hc pre u ok post Heq.
  - destruct pre; discriminate.
  - destruct pre as [| e' pre]; simpl in Heq; injection Heq as -> ->.
    + simpl in Hc. apply andb_true_iff in Hc as [-> _]. by left.
    + assert (Hrec : forall seen', updates_guarded seen' (pre ++ EvUpdateVideo u ok :: post)%list = true ->
                seen' = true \/ exists input, EvPutObject input true ∈ pre)
        by (intros s' Hs'; eapply IH; eauto).
      destruct e' as [? | ? | ? | ? | ? ? | ? ? | input okp | u' ok' | ? ? ? | ?];
        simpl in Hc;
        try (destruct (Hrec _ Hc) as [? | [i0 Hin]];
             [by left | right; exists i0; by apply list_elem_of_further]).
      * destruct okp.
        -- right. exists input. apply list_elem_of_here.
        -- destruct (Hrec _ Hc) as [? | [i Hin]];
             [by left | right; exists i; by apply list_elem_of_further].
      * apply andb_true_iff in Hc as [-> _]. by left.
Qed.

Lemma updates_guarded_spec (tr : list Event) :
  updates_guarded false tr = true -> update_only_after_put tr.
Proof.
  intros Hc pre u ok post Heq.
  destruct (updates_guarded_sound tr false Hc pre u ok post Heq); [done|assumption].
Qed.

Lemma no_update_spec (tr : list Event) :
  forallb (fun e => negb (is_update e)) tr = true -> no_update tr.
Proof.
  intros Hc u ok Hin. rewrite forallb_forall in Hc.
  apply list_elem_of_In in Hin. apply Hc in Hin. discriminate.
Qed.

Lemma failed_put_spec (tr : list Event) :
  forallb (fun e => negb (is_failed_put e)) tr = true ->
  forall input, EvPutObject input false ∉ tr.
Proof.
  intros Hc input Hin. rewrite forallb_forall in Hc.
  apply list_elem_of_In in Hin. apply Hc in Hin. discriminate.
Qed.

End Logs.


Section PutGate.

Variables (cfg : apiConfig) (env : Env).
Variables (d : gmap string string) (o : gmap (string * string) string)
          (v : gmap UUID Video).

Lemma put_gate_check (w : World) :
  updates_guarded false (trace w) = true ->
  forallb (fun e => negb (is_failed_put e)) (trace w) = true
  \/ (status (trace w) = Some StatusInternalServerError
      /\ forallb (fun e => negb (is_update e)) (trace w) = true
      /\ videos w = v) ->
  put_gate v w.
Proof.
  intros Hg Hf. split; [by apply updates_guarded_spec|].
  intros input Hin. destruct Hf as [Hf | (Hs & Hu & Hv)].
  - by destruct (failed_put_spec _ Hf input).
  - split; [assumption|]. split; [by apply no_update_spec | assumption].
Qed.

Lemma put_gate_Direct :
  put_gate v (snd (Direct.handlerUploadVideo cfg env (initial d o v))).
Proof.
  apply put_gate_check; handler_paths;
    first [ reflexivity
          | left; reflexivity
          | right; repeat split; reflexivity ].
Qed.

Lemma put_gate_FastStart :
  put_gate v (snd (FastStart.handlerUploadVideo cfg env (initial d o v))).
Proof.
  apply put_gate_check; handler_paths;
    first [ reflexivity
          | left; reflexivity
          | right; repeat split; reflexivity ].
Qed.

End PutGate.


(** ** The probe failure path *)

Section ProbeFailure.

Variables (cfg : apiConfig) (env : Env).
Variables (d : gmap string string) (o : gmap (string * string) string)
          (v : gmap UUID Video).

(** The second handler returns right after the error answer: only the
    deferred removal of the staged file follows. *)
Lemma probe_failure_FastStart (post : list Event) :
  after_failed_probe
    (trace (snd (FastStart.handlerUploadVideo cfg env (initial d o v))))
  = Some post ->
  exists tmp, post = [EvRespond StatusInternalServerError; EvRemove tmp].
Proof.
  handler_paths; cbn; intros Hp; try discriminate Hp;
    injection Hp as <-; eexists; reflexivity.
Qed.

End ProbeFailure.


(** ** Temporary files *)

Section TempFiles.

Variables (cfg : apiConfig) (env : Env).
Variables (d : gmap string string) (o : gmap (string * string) string)
          (v : gmap UUID Video).

Lemma length_append (a b : string) :
  String.length (a +:+ b) = (String.length a + String.length b)%nat.
Proof. induction a as [| x a IH]; simpl; [reflexivity | by rewrite IH]. Qed.

Lemma workFile_of_ne (name : string) : name <> workFile_of name.
Proof.
  intros H. apply (f_equal String.length) in H.
  unfold workFile_of in H. rewrite length_append in H. simpl in H. lia.
Qed.

(** The staged copy is removed on every path that created it, panics
    included. *)
Lemma staged_file_removed_FastStart (tmp : string) :
  let w := snd (FastStart.handlerUploadVideo cfg env (initial d o v)) in
  EvCreateTemp tmp ∈ trace w -> disk w !! tmp = None.
Proof.
  handler_paths; cbn; intros Hin;
    repeat (apply elem_of_cons in Hin as [Hin | Hin]; [try discriminate Hin|]);
    try (by apply elem_of_nil in Hin);
    injection Hin as ->; apply lookup_delete_eq.
Qed.

End TempFiles.

(** C3. In the handler of [src/handler_upload_video.go] a failed probe does
    not end the request: the internal-error answer is followed by the put to
    the object store under an "other/" key, and by the metadata update when
    the put succeeds. *)
Theorem probe_failure_still_publishes (cfg : apiConfig) (env : Env)
  (d : gmap string string) (o : gmap (string * string) string)
  (v : gmap UUID Video) (post : list Event)
  (Hfailed : after_failed_probe
               (trace (snd (Direct.handlerUploadVideo cfg env (initial d o v))))
             = Some post) :
  exists input ok rest,
    post = EvRespond StatusInternalServerError :: EvPutObject input ok :: rest
    /\ Key input
       = fileKey "" (Base64.RawURLEncoding_EncodeToString (rand_Read env))
                 (ContentType input)
    /\ (ok = true -> exists u ok', rest = EvUpdateVideo u ok' :: List.tl rest).
Proof.
  revert Hfailed.
  handler_paths; cbn; intros Hp; try discriminate Hp;
    injection Hp as <-; do 3 eexists;
    (split; [reflexivity|]); (split; [reflexivity|]);
    intros Hok; try discriminate Hok; do 2 eexists; reflexivity.
Qed.

Lemma probe_failure_still_publishes_witness :
  let tr := trace (snd (Direct.handlerUploadVideo Example.cfg Example.probe_fails
                          (initial ∅ ∅ (Example.store Example.alice)))) in
  exists post input ok rest,
    after_failed_probe tr = Some post
    /\ post = EvRespond StatusInternalServerError :: EvPutObject input ok :: rest.
Proof.
  eexists.
  destruct (probe_failure_still_publishes Example.cfg Example.probe_fails ∅ ∅
              (Example.store Example.alice) _ eq_refl)
    as (input & ok & rest & Hpost & _).
  exists input, ok, rest. split; [reflexivity | exact Hpost].
Defined.

(** The same request through both handlers: after the failed probe the
    first one puts the staged bytes and updates the record, the second one
    only removes the staged file. *)
Example probe_failure_runs :
  let w0 := initial ∅ ∅ (Example.store Example.alice) in
  let direct := snd (Direct.handlerUploadVideo Example.cfg Example.probe_fails w0) in
  let faststart := snd (FastStart.handlerUploadVideo Example.cfg Example.probe_fails w0) in
  after_failed_probe (trace direct)
  = Some [EvRespond 500;
          EvPutObject
            (mkPutObjectInput "tubely-media"
               "other/KioqKioqKioqKioqKioqKioqKioqKioqKioqKioqKio.mp4"
               "mp4-bytes" "video/mp4") true;
          EvUpdateVideo
            (mkVideo 7%N 1%N
               (Some "https://tubely-media.s3.us-east-2.amazonaws.com/other/KioqKioqKioqKioqKioqKioqKioqKioqKioqKioqKio.mp4")
               1700000000) true;
          EvRespond 200;
          EvRemove Example.temp_name]
  /\ objects direct
       !! ("tubely-media", "other/KioqKioqKioqKioqKioqKioqKioqKioqKioqKioqKio.mp4")
     = Some "mp4-bytes"
  /\ after_failed_probe (trace faststart)
     = Some [EvRespond 500; EvRemove Example.temp_name]
  /\ objects faststart = ∅.
Proof. vm_compute. repeat split; reflexivity. Qed.

(** C4. After a successful upload through the second handler the remuxed
    output is still on disk under the work path: the handler never removes
    it. *)
Theorem remuxed_file_left_behind (cfg : apiConfig) (env : Env)
  (d : gmap string string) (o : gmap (string * string) string)
  (v : gmap UUID Video)
  (Hok : status (trace (snd (FastStart.handlerUploadVideo cfg env (initial d o v))))
         = Some StatusOK) :
  exists tmp bytes,
    os_CreateTemp env = Ok tmp
    /\ disk (snd (FastStart.handlerUploadVideo cfg env (initial d o v)))
         !! workFile_of tmp = Some bytes
    /\ bytes <> EmptyString.
Proof.
  revert Hok.
  handler_paths; cbn; intros Hs; try discriminate Hs; simplify_eq;
    (do 2 eexists; split; [reflexivity|]; split;
     [ rewrite lookup_delete_ne by apply workFile_of_ne; eassumption
     | intros ->;
       match goal with
       | H : (Z.of_nat (String.length _) =? 0) = false |- _ =>
           cbn in H; discriminate H
       end ]).
Qed.

Lemma remuxed_file_left_behind_witness :
  let w := snd (FastStart.handlerUploadVideo Example.cfg Example.happy
                  (initial ∅ ∅ (Example.store Example.alice))) in
  status (trace w) = Some StatusOK
  /\ exists tmp bytes,
       os_CreateTemp Example.happy = Ok tmp
       /\ disk w !! workFile_of tmp = Some bytes /\ bytes <> EmptyString.
Proof.
  split; [reflexivity|].
  exact (remuxed_file_left_behind Example.cfg Example.happy ∅ ∅
           (Example.store Example.alice) eq_refl).
Defined.

(** The disk after the successful example run: the staged file is gone, the
    remuxed file is not. *)
Example happy_run_disk :
  let w := snd (FastStart.handlerUploadVideo Example.cfg Example.happy
                  (initial ∅ ∅ (Example.store Example.alice))) in
  status (trace w) = Some 200
  /\ disk w !! Example.temp_name = None
  /\ disk w !! "/tmp/tubely-temp-upload.mp4104729.processing" = Some "remuxed-bytes".
Proof. vm_compute. repeat split; reflexivity. Qed.

(** C5. In both handlers the metadata update is only attempted after the
    put to the object store has succeeded; when the put fails the answer is
    an internal error, the update operation is not invoked and the metadata
    store is left as it was. *)
Theorem metadata_only_after_put (cfg : apiConfig) (env : Env)
  (d : gmap string string) (o : gmap (string * string) string)
  (v : gmap UUID Video) :
  let w1 := snd (Direct.handlerUploadVideo cfg env (initial d o v)) in
  let w2 := snd (FastStart.handlerUploadVideo cfg env (initial d o v)) in
  (update_only_after_put (trace w1)
   /\ forall input, EvPutObject input false ∈ trace w1 ->
        status (trace w1) = Some StatusInternalServerError
        /\ no_update (trace w1) /\ videos w1 = v)
  /\ (update_only_after_put (trace w2)
      /\ forall input, EvPutObject input false ∈ trace w2 ->
           status (trace w2) = Some StatusInternalServerError
           /\ no_update (trace w2) /\ videos w2 = v).
Proof.
  exact (conj (put_gate_Direct cfg env d o v) (put_gate_FastStart cfg env d o v)).
Qed.

Lemma metadata_only_after_put_witness :
  let w := snd (FastStart.handlerUploadVideo Example.cfg Example.put_fails
                  (initial ∅ ∅ (Example.store Example.alice))) in
  status (trace w) = Some StatusInternalServerError
  /\ no_update (trace w) /\ videos w = Example.store Example.alice.
Proof.
  apply (proj2 (proj2 (metadata_only_after_put Example.cfg Example.put_fails ∅ ∅
                         (Example.store Example.alice)))
           (mkPutObjectInput "tubely-media"
              "landscape/KioqKioqKioqKioqKioqKioqKioqKioqKioqKioqKio.mp4"
              "remuxed-bytes" "video/mp4")).
  vm_compute. do 5 apply list_elem_of_further. apply list_elem_of_here.
Defined.

(** ** What a request never does *)

(** X1. A request without a usable bearer token is answered unauthorized by
    both handlers before anything else happens: no lookup, no file, no put,
    no update. *)
Theorem unauthenticated_untouched (cfg : apiConfig) (env : Env)
  (d : gmap string string) (o : gmap (string * string) string)
  (v : gmap UUID Video)
  (Hauth : (exists e, auth_GetBearerToken env = Err e)
           \/ (exists token e, auth_GetBearerToken env = Ok token
                               /\ auth_ValidateJWT env token = Err e)) :
  Direct.handlerUploadVideo cfg env (initial d o v)
  = (Returned tt, mkWorld d o v [EvRespond StatusUnauthorized])
  /\ FastStart.handlerUploadVideo cfg env (initial d o v)
     = (Returned tt, mkWorld d o v [EvRespond StatusUnauthorized]).
Proof.
  unfold Direct.handlerUploadVideo, FastStart.handlerUploadVideo.
  destruct Hauth as [[e He] | (token & e & Ht & He)].
  - rewrite He. split; reflexivity.
  - rewrite Ht, He. split; reflexivity.
Qed.

Lemma unauthenticated_untouched_witness :
  FastStart.handlerUploadVideo Example.cfg Example2.no_token
    (initial ∅ ∅ (Example.store Example.alice))
  = (Returned tt,
     mkWorld ∅ ∅ (Example.store Example.alice) [EvRespond StatusUnauthorized]).
Proof.
  apply (unauthenticated_untouched Example.cfg Example2.no_token ∅ ∅
           (Example.store Example.alice)).
  left. eexists. reflexivity.
Defined.

(** X2. Whenever a handler answers with a client error (400, 401 or 404),
    the disk, the object store and the metadata store are exactly as they
    were before the request. *)
Theorem client_error_leaves_no_trace (cfg : apiConfig) (env : Env)
  (d : gmap string string) (o : gmap (string * string) string)
  (v : gmap UUID Video) (code : Z)
  (Hcode : code = StatusBadRequest \/ code = StatusUnauthorized
           \/ code = StatusNotFound) :
  let w1 := snd (Direct.handlerUploadVideo cfg env (initial d o v)) in
  let w2 := snd (FastStart.handlerUploadVideo cfg env (initial d o v)) in
  (status (trace w1) = Some code ->
   disk w1 = d /\ objects w1 = o /\ videos w1 = v)
  /\ (status (trace w2) = Some code ->
      disk w2 = d /\ objects w2 = o /\ videos w2 = v).
Proof.
  assert (Hne : code <> StatusInternalServerError /\ code <> StatusOK)
    by (unfold StatusBadRequest, StatusUnauthorized, StatusNotFound,
          StatusInternalServerError, StatusOK in *; lia).
  destruct Hne as [H500 H200].
  split; handler_paths; cbn; intros Hs;
    try (injection Hs as Hs; congruence); try discriminate Hs;
    repeat split; reflexivity.
Qed.

Lemma client_error_leaves_no_trace_witness :
  let w := snd (FastStart.handlerUploadVideo Example.cfg Example2.png_upload
                  (initial ∅ ∅ (Example.store Example.alice))) in
  status (trace w) = Some StatusBadRequest
  /\ disk w = ∅ /\ objects w = ∅ /\ videos w = Example.store Example.alice.
Proof.
  split; [reflexivity|].
  apply (proj2 (client_error_leaves_no_trace Example.cfg Example2.png_upload ∅ ∅
                  (Example.store Example.alice) StatusBadRequest
                  (or_introl eq_refl))).
  reflexivity.
Defined.



(** X4. No stage is repeated within a request: in both handlers the log
    holds at most one temp-file creation, one probe, one remux, one put and
    one update, and at most two responses. *)
Theorem no_stage_repeated (cfg : apiConfig) (env : Env)
  (d : gmap string string) (o : gmap (string * string) string)
  (v : gmap UUID Video) :
  let tr1 := trace (snd (Direct.handlerUploadVideo cfg env (initial d o v))) in
  let tr2 := trace (snd (FastStart.handlerUploadVideo cfg env (initial d o v))) in
  ((occurrences is_create tr1 <= 1 /\ occurrences is_probe tr1 <= 1
    /\ occurrences is_remux tr1 = 0 /\ occurrences is_put_attempt tr1 <= 1
    /\ occurrences is_update tr1 <= 1)
   /\ (occurrences is_create tr2 <= 1 /\ occurrences is_probe tr2 <= 1
       /\ occurrences is_remux tr2 <= 1 /\ occurrences is_put_attempt tr2 <= 1
       /\ occurrences is_update tr2 <= 1))%nat.
Proof.
  cbn zeta; split;
    [ handler_run (Direct.handlerUploadVideo cfg env (initial d o v))
    | handler_run (FastStart.handlerUploadVideo cfg env (initial d o v)) ];
    cbn [occurrences is_create is_probe is_remux is_put_attempt is_update Nat.add];
    repeat split; lia.
Qed.

(** X5. Every metadata update a handler attempts is for the record found
    under the requested id, whose owner is the authenticated caller; the
    update keeps the record's id and owner, stamps it with the current time
    and sets the locator built from a put that has succeeded: "bucket,key" in
    the second handler, the direct URL of the key in the first. *)
Theorem update_keeps_identity (cfg : apiConfig) (env : Env)
  (d : gmap string string) (o : gmap (string * string) string)
  (v : gmap UUID Video) (u : Video) (ok : bool) :
  let tr1 := trace (snd (Direct.handlerUploadVideo cfg env (initial d o v))) in
  let tr2 := trace (snd (FastStart.handlerUploadVideo cfg env (initial d o v))) in
  let found (tr : list Event) (locator : PutObjectInput -> string) :=
    exists token id video input,
      auth_GetBearerToken env = Ok token
      /\ auth_ValidateJWT env token = Ok (UserID video)
      /\ uuid_Parse env (url_Base env) = Some id
      /\ v !! id = Some video
      /\ EvPutObject input true ∈ tr
      /\ u = mkVideo (ID video) (UserID video) (Some (locator input))
                     (time_Now env) in
  (EvUpdateVideo u ok ∈ tr1 ->
   found tr1 (fun input => "https://" +:+ Bucket input +:+ ".s3." +:+ s3Region cfg
                           +:+ ".amazonaws.com/" +:+ Key input))
  /\ (EvUpdateVideo u ok ∈ tr2 ->
      found tr2 (fun input => Bucket input +:+ "," +:+ Key input)).
Proof.
  cbn zeta; split;
    [ handler_run (Direct.handlerUploadVideo cfg env (initial d o v))
    | handler_run (FastStart.handlerUploadVideo cfg env (initial d o v)) ];
    intros Hin; log_cases Hin; injection Hin as -> ->;
    owner_checked; subst;
    do 4 eexists; repeat (split; [eassumption || reflexivity|]);
    (split;
     [ repeat (first [apply list_elem_of_here | apply list_elem_of_further])
     | reflexivity ]).
Qed.

Lemma update_keeps_identity_witness :
  exists token id video input,
    auth_GetBearerToken Example.happy = Ok token
    /\ auth_ValidateJWT Example.happy token = Ok (UserID video)
    /\ uuid_Parse Example.happy (url_Base Example.happy) = Some id
    /\ Example.store Example.alice !! id = Some video
    /\ EvPutObject input true
       ∈ trace (snd (FastStart.handlerUploadVideo Example.cfg Example.happy
                       (initial ∅ ∅ (Example.store Example.alice))))
    /\ mkVideo 7%N 1%N
         (Some "tubely-media,landscape/KioqKioqKioqKioqKioqKioqKioqKioqKioqKioqKio.mp4")
         1700000000
       = mkVideo (ID video) (UserID video)
           (Some (Bucket input +:+ "," +:+ Key input)) (time_Now Example.happy).
Proof.
  apply (proj2 (update_keeps_identity Example.cfg Example.happy ∅ ∅
                  (Example.store Example.alice)
                  (mkVideo 7%N 1%N
                     (Some "tubely-media,landscape/KioqKioqKioqKioqKioqKioqKioqKioqKioqKioqKio.mp4")
                     1700000000) true)).
  in_log.
Defined.

(** X6. When the metadata store rejects the update, the answer is an
    internal error, the metadata store is as it was, and the object put just
    before stays in the object store: nothing deletes it. *)
Theorem rejected_update_orphans_object (cfg : apiConfig) (env : Env)
  (d : gmap string string) (o : gmap (string * string) string)
  (v : gmap UUID Video) (u : Video) :
  let w1 := snd (Direct.handlerUploadVideo cfg env (initial d o v)) in
  let w2 := snd (FastStart.handlerUploadVideo cfg env (initial d o v)) in
  let orphaned (w : World) :=
    status (trace w) = Some StatusInternalServerError
    /\ videos w = v
    /\ exists input,
         EvPutObject input true ∈ trace w
         /\ objects w !! (Bucket input, Key input) = Some (Body input) in
  (EvUpdateVideo u false ∈ trace w1 -> orphaned w1)
  /\ (EvUpdateVideo u false ∈ trace w2 -> orphaned w2).
Proof.
  cbn zeta; split;
    [ handler_run (Direct.handlerUploadVideo cfg env (initial d o v))
    | handler_run (FastStart.handlerUploadVideo cfg env (initial d o v)) ];
    intros Hin; log_cases Hin; injection Hin as ->;
    (split; [reflexivity|]); (split; [reflexivity|]);
    eexists;
    (split;
     [ repeat (first [apply list_elem_of_here | apply list_elem_of_further])
     | apply lookup_insert_eq ]).
Qed.

Lemma rejected_update_orphans_object_witness :
  let w := snd (FastStart.handlerUploadVideo Example.cfg Example2.update_fails
                  (initial ∅ ∅ (Example.store Example.alice))) in
  status (trace w) = Some StatusInternalServerError
  /\ videos w = Example.store Example.alice
  /\ exists input,
       EvPutObject input true ∈ trace w
       /\ objects w !! (Bucket input, Key input) = Some (Body input).
Proof.
  apply (proj2 (rejected_update_orphans_object Example.cfg Example2.update_fails
                  ∅ ∅ (Example.store Example.alice)
                  (mkVideo 7%N 1%N
                     (Some "tubely-media,landscape/KioqKioqKioqKioqKioqKioqKioqKioqKioqKioqKio.mp4")
                     1700000000))).
  in_log.
Defined.

(** X7. A 200 answer means the whole pipeline went through: the object is
    in the object store under the key of the put, and the metadata store
    holds, under the record's id, the record whose locator names that
    object. *)
Theorem success_links_record_to_object (cfg : apiConfig) (env : Env)
  (d : gmap string string) (o : gmap (string * string) string)
  (v : gmap UUID Video) :
  let w1 := snd (Direct.handlerUploadVideo cfg env (initial d o v)) in
  let w2 := snd (FastStart.handlerUploadVideo cfg env (initial d o v)) in
  let linked (w : World) (locator : PutObjectInput -> string) :=
    exists input u,
      EvPutObject input true ∈ trace w
      /\ EvUpdateVideo u true ∈ trace w
      /\ objects w !! (Bucket input, Key input) = Some (Body input)
      /\ videos w !! ID u = Some u
      /\ VideoURL u = Some (locator input) in
  (status (trace w1) = Some StatusOK ->
   linked w1 (fun input => "https://" +:+ Bucket input +:+ ".s3." +:+ s3Region cfg
                           +:+ ".amazonaws.com/" +:+ Key input))
  /\ (status (trace w2) = Some StatusOK ->
      linked w2 (fun input => Bucket input +:+ "," +:+ Key input)).
Proof.
  cbn zeta; split;
    [ handler_run (Direct.handlerUploadVideo cfg env (initial d o v))
    | handler_run (FastStart.handlerUploadVideo cfg env (initial d o v)) ];
    cbn [status]; intros Hs; try discriminate Hs;
    do 2 eexists;
    (split;
     [ repeat (first [apply list_elem_of_here | apply list_elem_of_further]) |]);
    (split;
     [ repeat (first [apply list_elem_of_here | apply list_elem_of_further]) |]);
    (split; [apply lookup_insert_eq |]);
    (split; [apply lookup_insert_eq | reflexivity]).
Qed.

Lemma success_links_record_to_object_witness :
  let w := snd (FastStart.handlerUploadVideo Example.cfg Example.happy
                  (initial ∅ ∅ (Example.store Example.alice))) in
  exists input u,
    EvPutObject input true ∈ trace w
    /\ EvUpdateVideo u true ∈ trace w
    /\ objects w !! (Bucket input, Key input) = Some (Body input)
    /\ videos w !! ID u = Some u
    /\ VideoURL u = Some (Bucket input +:+ "," +:+ Key input).
Proof.
  apply (proj2 (success_links_record_to_object Example.cfg Example.happy ∅ ∅
                  (Example.store Example.alice))).
  reflexivity.
Defined.

(** X8. The first handler leaves no file behind: every file on disk after
    the request was there before, with the same bytes.  In the second handler
    the only file that can be new or changed is the remux work file of the
    staged upload. *)
Theorem disk_after_request (cfg : apiConfig) (env : Env)
  (d : gmap string string) (o : gmap (string * string) string)
  (v : gmap UUID Video) (name bytes : string) :
  let w1 := snd (Direct.handlerUploadVideo cfg env (initial d o v)) in
  let w2 := snd (FastStart.handlerUploadVideo cfg env (initial d o v)) in
  (disk w1 !! name = Some bytes -> d !! name = Some bytes)
  /\ (disk w2 !! name = Some bytes ->
      d !! name = Some bytes
      \/ exists tmp, os_CreateTemp env = Ok tmp /\ name = workFile_of tmp).
Proof.
  cbn zeta; split;
    [ handler_run (Direct.handlerUploadVideo cfg env (initial d o v))
    | handler_run (FastStart.handlerUploadVideo cfg env (initial d o v)) ];
    rewrite ?delete_insert_eq, ?delete_delete_eq;
    intros Hl;
    repeat match type of Hl with
           | delete _ _ !! _ = Some _ =>
               apply lookup_delete_Some in Hl as [? Hl]
           | <[_ := _]> _ !! _ = Some _ =>
               apply lookup_insert_Some in Hl as [[<- ?] | [? Hl]]
           end;
    first [ assumption | by left | right; eexists; split; reflexivity | done ].
Qed.

Lemma disk_after_request_witness :
  (∅ : gmap string string) !! "/tmp/tubely-temp-upload.mp4104729.processing"
  = Some "remuxed-bytes"
  \/ exists tmp,
       os_CreateTemp Example.happy = Ok tmp
       /\ "/tmp/tubely-temp-upload.mp4104729.processing" = workFile_of tmp.
Proof.
  apply (proj2 (disk_after_request Example.cfg Example.happy ∅ ∅
                  (Example.store Example.alice)
                  "/tmp/tubely-temp-upload.mp4104729.processing" "remuxed-bytes")).
  vm_compute. reflexivity.
Defined.

(** X9. What a handler puts to the object store: always into the configured
    bucket, under a key derived from the token and the declared media type,
    with the declared media type of an upload that passed [mimeCheckVideo] as
    content type.  The first handler sends the staged bytes; the second sends
    the bytes of the remux work file, which are never empty. *)
Theorem published_object (cfg : apiConfig) (env : Env)
  (d : gmap string string) (o : gmap (string * string) string)
  (v : gmap UUID Video) (input : PutObjectInput) (ok : bool) :
  let w1 := snd (Direct.handlerUploadVideo cfg env (initial d o v)) in
  let w2 := snd (FastStart.handlerUploadVideo cfg env (initial d o v)) in
  let token := Base64.RawURLEncoding_EncodeToString (rand_Read env) in
  let described (body_ok : string -> string -> Prop) :=
    exists bytes mediaType class tmp,
      r_FormFile env = Ok (bytes, mediaType)
      /\ mimeCheckVideo env mediaType = None
      /\ os_CreateTemp env = Ok tmp
      /\ input = mkPutObjectInput (s3Bucket cfg) (fileKey class token mediaType)
                   (Body input) mediaType
      /\ body_ok bytes tmp in
  (EvPutObject input ok ∈ trace w1 ->
   described (fun bytes _ => Body input = io_Copy env bytes))
  /\ (EvPutObject input ok ∈ trace w2 ->
      described (fun _ tmp => Body input <> EmptyString
                              /\ disk w2 !! workFile_of tmp = Some (Body input))).
Proof.
  cbn zeta; split;
    [ handler_run (Direct.handlerUploadVideo cfg env (initial d o v))
    | handler_run (FastStart.handlerUploadVideo cfg env (initial d o v)) ];
    intros Hin; log_cases Hin; injection Hin as -> ->;
    do 4 eexists;
    (split; [first [eassumption | reflexivity]|]);
    (split;
     [ unfold mimeCheckVideo;
       repeat match goal with
              | H : mime_ParseMediaType _ _ = _ |- _ => try rewrite H; clear H
              | H : String.eqb _ _ = true |- _ => try rewrite H; clear H
              end; reflexivity |]);
    (split; [first [eassumption | reflexivity]|]);
    (split; [reflexivity|]); cbn [Body];
    first
      [ rewrite lookup_insert_eq; reflexivity
      | simplify_eq;
        (split;
         [ intros ->;
           match goal with
           | H : (Z.of_nat (String.length _) =? 0) = false |- _ =>
               cbn in H; discriminate H
           end
         | rewrite lookup_delete_ne by apply workFile_of_ne; eassumption ]) ].
Qed.

Lemma published_object_witness :
  exists bytes mediaType class tmp,
    r_FormFile Example.happy = Ok (bytes, mediaType)
    /\ mimeCheckVideo Example.happy mediaType = None
    /\ os_CreateTemp Example.happy = Ok tmp
    /\ mkPutObjectInput "tubely-media"
         "landscape/KioqKioqKioqKioqKioqKioqKioqKioqKioqKioqKio.mp4"
         "remuxed-bytes" "video/mp4"
       = mkPutObjectInput (s3Bucket Example.cfg)
           (fileKey class
              (Base64.RawURLEncoding_EncodeToString (rand_Read Example.happy))
              mediaType)
           "remuxed-bytes" mediaType
    /\ "remuxed-bytes" <> EmptyString
    /\ disk (snd (FastStart.handlerUploadVideo Example.cfg Example.happy
                    (initial ∅ ∅ (Example.store Example.alice))))
         !! workFile_of tmp = Some "remuxed-bytes".
Proof.
  apply (proj2 (published_object Example.cfg Example.happy ∅ ∅
                  (Example.store Example.alice)
                  (mkPutObjectInput "tubely-media"
                     "landscape/KioqKioqKioqKioqKioqKioqKioqKioqKioqKioqKio.mp4"
                     "remuxed-bytes" "video/mp4") true)).
  in_log.
Defined.

(** X21. The key of a put follows the probe of the staged bytes: the probe
    process is given the temp file holding what [io.Copy] wrote, and the class
    computed from its first stream is the class in the key.  In the first
    handler a put can also follow a failed probe, and then the key is built
    from the empty class. *)
Theorem key_follows_probe (cfg : apiConfig) (env : Env)
  (d : gmap string string) (o : gmap (string * string) string)
  (v : gmap UUID Video) (input : PutObjectInput) (ok : bool) :
  let tr1 := trace (snd (Direct.handlerUploadVideo cfg env (initial d o v))) in
  let tr2 := trace (snd (FastStart.handlerUploadVideo cfg env (initial d o v))) in
  let token := Base64.RawURLEncoding_EncodeToString (rand_Read env) in
  let classified (bytes mediaType tmp : string) :=
    exists out streams class,
      ffprobe env tmp (Some (io_Copy env bytes)) = Ok out
      /\ json_Unmarshal env out = Ok streams
      /\ aspect_of_streams streams = Returned class
      /\ Key input = fileKey class token mediaType in
  (EvPutObject input ok ∈ tr1 ->
   exists bytes mediaType tmp,
     r_FormFile env = Ok (bytes, mediaType) /\ os_CreateTemp env = Ok tmp
     /\ (classified bytes mediaType tmp
         \/ (EvProbe tmp false ∈ tr1
             /\ Key input = fileKey "" token mediaType)))
  /\ (EvPutObject input ok ∈ tr2 ->
      exists bytes mediaType tmp,
        r_FormFile env = Ok (bytes, mediaType) /\ os_CreateTemp env = Ok tmp
        /\ classified bytes mediaType tmp).
Proof.
  cbn zeta; split;
    [ handler_run (Direct.handlerUploadVideo cfg env (initial d o v))
    | handler_run (FastStart.handlerUploadVideo cfg env (initial d o v)) ];
    intros Hin; log_cases Hin; injection Hin as -> ->;
    repeat match goal with
           | H : context [<[?k := ?x]> ?m !! ?k] |- _ =>
               rewrite (lookup_insert_eq m k x) in H
           end;
    do 3 eexists;
    (split; [first [eassumption | reflexivity]|]);
    (split; [first [eassumption | reflexivity]|]);
    first
      [ do 3 eexists;
        (split; [eassumption|]); (split; [eassumption|]);
        (split; [eassumption|]); reflexivity
      | left; do 3 eexists;
        (split; [eassumption|]); (split; [eassumption|]);
        (split; [eassumption|]); reflexivity
      | right; split;
        [ repeat (first [apply list_elem_of_here | apply list_elem_of_further])
        | reflexivity ] ].
Qed.

Lemma key_follows_probe_witness :
  exists bytes mediaType tmp,
    r_FormFile Example.happy = Ok (bytes, mediaType)
    /\ os_CreateTemp Example.happy = Ok tmp
    /\ exists out streams class,
         ffprobe Example.happy tmp (Some (io_Copy Example.happy bytes)) = Ok out
         /\ json_Unmarshal Example.happy out = Ok streams
         /\ aspect_of_streams streams = Returned class
         /\ "landscape/KioqKioqKioqKioqKioqKioqKioqKioqKioqKioqKio.mp4"
            = fileKey class
                (Base64.RawURLEncoding_EncodeToString (rand_Read Example.happy))
                mediaType.
Proof.
  apply (proj2 (key_follows_probe Example.cfg Example.happy ∅ ∅
                  (Example.store Example.alice)
                  (mkPutObjectInput "tubely-media"
                     "landscape/KioqKioqKioqKioqKioqKioqKioqKioqKioqKioqKio.mp4"
                     "remuxed-bytes" "video/mp4") true)).
  in_log.
Defined.

(** X12. In the second handler an internal-error answer can follow a
    completed upload: when the update has succeeded and the answer is 500,
    the object is in the object store, the metadata store holds the new
    record, and the cause is that [dbVideoToSignedVideo] fails on that
    record. *)
Theorem error_answer_after_commit (cfg : apiConfig) (env : Env)
  (d : gmap string string) (o : gmap (string * string) string)
  (v : gmap UUID Video) (u : Video)
  (Hupdated : EvUpdateVideo u true
              ∈ trace (snd (FastStart.handlerUploadVideo cfg env (initial d o v))))
  (Hstatus : status (trace (snd (FastStart.handlerUploadVideo cfg env (initial d o v))))
             = Some StatusInternalServerError) :
  let w2 := snd (FastStart.handlerUploadVideo cfg env (initial d o v)) in
  videos w2 !! ID u = Some u
  /\ (exists input, objects w2 !! (Bucket input, Key input) = Some (Body input)
                    /\ VideoURL u = Some (Bucket input +:+ "," +:+ Key input))
  /\ forall w, exists e, fst (dbVideoToSignedVideo env u w) = Err e.
Proof.
  revert Hupdated Hstatus. cbn zeta.
  handler_run (FastStart.handlerUploadVideo cfg env (initial d o v));
    cbn [status]; intros Hin Hs; try discriminate Hs;
    log_cases Hin; injection Hin as ->;
    (split; [apply lookup_insert_eq|]);
    (split;
     [ eexists; split; [apply lookup_insert_eq | reflexivity] |]);
    intros w'; unfold dbVideoToSignedVideo, generatePresignedURL;
    cbn [VideoURL set_VideoURL] in *; simplify_eq;
    repeat match goal with
           | H : Split _ _ = _ |- _ => rewrite H; clear H
           | H : s3_PresignGetObject _ _ _ _ = _ |- _ => rewrite H; clear H
           end;
    cbn [fst]; eauto.
Qed.

Lemma error_answer_after_commit_witness :
  let w := snd (FastStart.handlerUploadVideo Example.cfg Example2.codecs_upload
                  (initial ∅ ∅ (Example.store Example.alice))) in
  let u := mkVideo 7%N 1%N
             (Some ("tubely-media,landscape/KioqKioqKioqKioqKioqKioqKioqKioqKioqKioqKio."
                    +:+ mimeToExt Example2.codecs_type))
             1700000000 in
  status (trace w) = Some StatusInternalServerError
  /\ videos w !! ID u = Some u
  /\ forall w', exists e, fst (dbVideoToSignedVideo Example2.codecs_upload u w') = Err e.
Proof.
  cbn zeta. split; [vm_compute; reflexivity|].
  destruct (error_answer_after_commit Example.cfg Example2.codecs_upload ∅ ∅
              (Example.store Example.alice)
              (mkVideo 7%N 1%N
                 (Some ("tubely-media,landscape/KioqKioqKioqKioqKioqKioqKioqKioqKioqKioqKio."
                        +:+ mimeToExt Example2.codecs_type))
                 1700000000)) as (Hv & _ & He);
    [in_log | vm_compute; reflexivity |].
  split; [exact Hv | exact He].
Defined.

(** ** The remux step and the disk *)

(** X10. [processVideoForFastStart] touches one path only, the work path:
    every other file, the input included, is as before; when it returns an
    error nothing is left at the work path; the object store and the metadata
    store are never touched. *)
Theorem remux_touches_work_path_only (env : Env) (filePath : string) (w : World) :
  let r := processVideoForFastStart env filePath w in
  (forall e, fst r = Err e -> disk (snd r) !! workFile_of filePath = None)
  /\ (forall name, name <> workFile_of filePath ->
        disk (snd r) !! name = disk w !! name)
  /\ disk (snd r) !! filePath = disk w !! filePath
  /\ objects (snd r) = objects w /\ videos (snd r) = videos w.
Proof.
  cbn zeta. unfold processVideoForFastStart, after_ffmpeg, os_Remove, write_file,
    emit, set_disk.
  pose proof (workFile_of_ne filePath) as Hne.
  destruct (ffmpeg env filePath (disk w !! filePath)) as [[e|] [out|]];
    cbn [fst snd disk objects videos];
    repeat match goal with
           | |- context [match ?x with _ => _ end] =>
               destruct x eqn:?; cbn [fst snd disk objects videos]
           end;
    repeat split; try reflexivity;
    intros; try discriminate;
    rewrite ?lookup_delete_eq, ?lookup_delete_ne, ?lookup_insert_ne by congruence;
    try reflexivity; try assumption.
Qed.

Lemma remux_touches_work_path_only_witness :
  let r := processVideoForFastStart
             (Example.env (Ok "{...}") Example.landscape
                (Some "exit status 1", Some "partial") None None)
             Example.temp_name Example.staged in
  disk (snd r) !! workFile_of Example.temp_name = None
  /\ disk (snd r) !! Example.temp_name = Some "mp4-bytes".
Proof.
  pose proof (remux_touches_work_path_only
                (Example.env (Ok "{...}") Example.landscape
                   (Some "exit status 1", Some "partial") None None)
                Example.temp_name Example.staged) as (Herr & _ & Hin & _).
  split.
  - exact (Herr _ eq_refl).
  - rewrite Hin. vm_compute. reflexivity.
Defined.

(** ** The locator, written by the handler and read by the accessor *)

Section Locator.

Lemma Split_head (sep : ascii) (a b : string) :
  count_char sep a = O -> Split sep (a +:+ String sep b) = a :: Split sep b.
Proof.
  induction a as [| x a IH]; simpl.
  - intros _. by rewrite Ascii.eqb_refl.
  - destruct (Ascii.eqb x sep); [discriminate|].
    intros Ha. by rewrite IH.
Qed.

Lemma enc_not_comma (i : Z) : Base64.enc i <> ","%char.
Proof.
  unfold Base64.enc.
  destruct (nth_in_or_default (Z.to_nat (Z.land i 63)) Base64.encodeURL "A"%char)
    as [Hin | ->]; [| discriminate].
  revert Hin. generalize (nth (Z.to_nat (Z.land i 63)) Base64.encodeURL "A"%char).
  intros c Hin Hc. subst c. vm_compute in Hin.
  repeat (destruct Hin as [Hin | Hin]; [discriminate Hin|]). exact Hin.
Qed.

Lemma count_comma_cons (c : ascii) (s : string) :
  c <> ","%char -> count_char "," (String c s) = count_char "," s.
Proof.
  intros Hc. simpl. destruct (Ascii.eqb_spec c ","%char); [done | reflexivity].
Qed.

Lemma encode_no_comma (src : list Byte.byte) :
  count_char "," (Base64.RawURLEncoding_EncodeToString src) = O.
Proof.
  unfold Base64.RawURLEncoding_EncodeToString.
  assert (H : forall n (l : list Byte.byte), (length l < n)%nat ->
              count_char "," (Base64.encode l) = O).
  { induction n as [| n IH]; intros l Hl; [lia|].
    destruct l as [| b0 [| b1 [| b2 rest]]]; cbn [Base64.encode];
      rewrite ?count_comma_cons by apply enc_not_comma; try reflexivity.
    apply IH. simpl in Hl. lia. }
  apply (H (S (length src))). lia.
Qed.

(** The commas of a key are those of its extension. *)
Lemma fileKey_commas (class mediaType : string) (rnd : list Byte.byte) :
  count_char "," (fileKey class (Base64.RawURLEncoding_EncodeToString rnd) mediaType)
  = count_char "," (mimeToExt mediaType).
Proof.
  unfold fileKey. rewrite !count_char_append, encode_no_comma.
  unfold key_prefix.
  destruct (String.eqb class "16:9"); [reflexivity|].
  destruct (String.eqb class "9:16"); reflexivity.
Qed.

End Locator.

(** X11. The locator "bucket,key" that the second handler stores is read
    back by [dbVideoToSignedVideo] as exactly that bucket and that key when
    neither the bucket name nor the extension taken from the declared media
    type contains a comma; when one of them does, the accessor rejects the
    stored locator as malformed and never calls the signer. *)
Theorem locator_round_trip (env : Env) (video : Video) (w : World)
  (bucket class mediaType : string) (rnd : list Byte.byte)
  (Hurl : VideoURL video
          = Some (bucket +:+ "," +:+
                  fileKey class (Base64.RawURLEncoding_EncodeToString rnd) mediaType)) :
  let key := fileKey class (Base64.RawURLEncoding_EncodeToString rnd) mediaType in
  let commas := (count_char "," bucket + count_char "," (mimeToExt mediaType))%nat in
  (commas = O ->
   dbVideoToSignedVideo env video w
   = (match s3_PresignGetObject env bucket key (15 * time_Minute) with
      | Ok signed => Ok (set_VideoURL (Some signed) video)
      | Err e => Err e
      end, emit (EvPresign bucket key (15 * time_Minute)) w))
  /\ (commas <> O ->
      dbVideoToSignedVideo env video w = (Err "invalid video URL format", w)).
Proof.
  cbn zeta. unfold dbVideoToSignedVideo. rewrite Hurl.
  set (key := fileKey class _ mediaType).
  assert (Hkey : count_char "," key = count_char "," (mimeToExt mediaType))
    by apply fileKey_commas.
  change (bucket +:+ "," +:+ key) with (bucket +:+ String "," key).
  split.
  - intros Hc.
    rewrite Split_head by lia. rewrite Split_clean by lia.
    unfold generatePresignedURL.
    destruct (s3_PresignGetObject env bucket key (15 * time_Minute)); reflexivity.
  - intros Hc.
    pose proof (Split_length "," (bucket +:+ String "," key)) as Hl.
    rewrite count_char_append in Hl. cbn [count_char] in Hl.
    rewrite Ascii.eqb_refl in Hl.
    destruct (Split "," (bucket +:+ String "," key)) as [| p1 [| p2 [| p3 ps]]];
      try reflexivity.
    cbn in Hl. lia.
Qed.

Lemma locator_round_trip_witness :
  let video := mkVideo 7%N 1%N
                 (Some "tubely-media,landscape/KioqKioqKioqKioqKioqKioqKioqKioqKioqKioqKio.mp4")
                 0 in
  fst (dbVideoToSignedVideo Example.happy video Example.staged)
  = Ok (set_VideoURL
          (Some "https://tubely-media/landscape/KioqKioqKioqKioqKioqKioqKioqKioqKioqKioqKio.mp4?signed")
          video).
Proof.
  cbn zeta.
  rewrite (proj1 (locator_round_trip Example.happy
                    (mkVideo 7%N 1%N
                       (Some "tubely-media,landscape/KioqKioqKioqKioqKioqKioqKioqKioqKioqKioqKio.mp4")
                       0)
                    Example.staged
                    "tubely-media" "16:9" "video/mp4" (repeat Byte.x2a 32) eq_refl)
             eq_refl).
  reflexivity.
Defined.

(** ** The probe *)

(** X22. [getVideoAspectRatio] returns an error exactly when the ffprobe run
    fails or its output does not unmarshal; it logs one probe and changes
    neither the disk nor the stores.  A probe output without streams is no
    error: the aspect ratio is the empty string, which the key derivation
    sends to the "other" prefix. *)
Theorem probe_errors_exactly_when (env : Env) (filePath : string) (w : World) :
  let r := getVideoAspectRatio env filePath w in
  let probed := ffprobe env filePath (disk w !! filePath) in
  ((exists e, fst r = Returned (Err e))
   <-> (exists e, probed = Err e)
       \/ (exists out e, probed = Ok out /\ json_Unmarshal env out = Err e))
  /\ (exists ok, trace (snd r) = (trace w ++ [EvProbe filePath ok])%list
                 /\ (ok = false <-> exists e, fst r = Returned (Err e)))
  /\ disk (snd r) = disk w /\ objects (snd r) = objects w
  /\ videos (snd r) = videos w
  /\ (forall out, probed = Ok out -> json_Unmarshal env out = Ok [] ->
        fst r = Returned (Ok EmptyString)
        /\ forall token mediaType,
             fileKey EmptyString token mediaType
             = "other/" +:+ token +:+ "." +:+ mimeToExt mediaType).
Proof.
  cbn zeta. unfold getVideoAspectRatio.
  destruct (ffprobe env filePath (disk w !! filePath)) as [out | e] eqn:Hp.
  - destruct (json_Unmarshal env out) as [streams | e] eqn:Hj.
    + destruct (aspect_of_streams streams) as [class | msg] eqn:Ha; cbn;
        (split; [split;
          [ intros [e He]; discriminate He
          | intros [[e He] | (out' & e & Ho & He)];
            [discriminate He | injection Ho as <-; congruence] ] |]);
        (split; [exists true; split; [reflexivity |];
                 split; [discriminate | intros [e He]; discriminate He] |]);
        repeat (split; [reflexivity|]);
        intros out' Ho Hs; injection Ho as <-;
        rewrite Hj in Hs; injection Hs as ->; cbn in Ha;
        try discriminate Ha; injection Ha as <-; split; reflexivity.
    + cbn. split; [split; [intros _; right; eauto | intros _; eauto] |].
      split; [exists false; split; [reflexivity | split; eauto] |].
      repeat (split; [reflexivity|]).
      intros out' Ho Hs. injection Ho as <-. congruence.
  - cbn. split; [split; [intros _; left; eauto | intros _; eauto] |].
    split; [exists false; split; [reflexivity | split; eauto] |].
    repeat (split; [reflexivity|]).
    intros out' Ho. discriminate Ho.
Qed.

Lemma probe_errors_exactly_when_witness :
  fst (getVideoAspectRatio
         (Example.env (Ok "no-streams") (Ok []) (None, None) None None)
         Example.temp_name Example.staged)
  = Returned (Ok EmptyString).
Proof.
  destruct (probe_errors_exactly_when
              (Example.env (Ok "no-streams") (Ok []) (None, None) None None)
              Example.temp_name Example.staged) as (_ & _ & _ & _ & _ & Hempty).
  apply (Hempty "no-streams"); vm_compute; reflexivity.
Defined.

(** ** More on the classifier *)

(** X13. The fraction printed by the default branch is in lowest terms and
    has the ratio of the dimensions: for positive width and height below 2^53
    it prints a and b with gcd(a, b) = 1 and a * height = b * width; scaling
    both dimensions by the same factor prints the same fraction. *)
Theorem reduced_fraction_lowest_terms (width height k : Z)
  (Hw : 0 < width) (Hh : 0 < height) (Hk : 0 < k)
  (Hkw : k * width < 2 ^ 53) (Hkh : k * height < 2 ^ 53) :
  (exists a b,
     reduced_fraction (F64.of_int width) (F64.of_int height)
     = Returned (GoInt.itoa a +:+ ":" +:+ GoInt.itoa b)
     /\ 0 < a /\ 0 < b /\ Z.gcd a b = 1 /\ a * height = b * width)
  /\ reduced_fraction (F64.of_int (k * width)) (F64.of_int (k * height))
     = reduced_fraction (F64.of_int width) (F64.of_int height).
Proof.
  assert (Hw53 : width < 2 ^ 53) by nia.
  assert (Hh53 : height < 2 ^ 53) by nia.
  pose proof (Z.gcd_nonneg width height) as Hg0.
  assert (Hg : 0 < Z.gcd width height).
  { destruct (Z.eq_dec (Z.gcd width height) 0) as [E|]; [|lia].
    apply Z.gcd_eq_0_l in E. lia. }
  destruct (Z.gcd_divide_l width height) as [a Ha].
  destruct (Z.gcd_divide_r width height) as [b Hb].
  assert (Hqa : width / Z.gcd width height = a)
    by (rewrite Ha at 1; apply Z.div_mul; lia).
  assert (Hqb : height / Z.gcd width height = b)
    by (rewrite Hb at 1; apply Z.div_mul; lia).
  split.
  - exists a, b. rewrite reduced_fraction_exact by lia.
    rewrite Hqa, Hqb. split; [reflexivity|].
    split; [nia|]. split; [nia|]. split.
    + rewrite <- Hqa, <- Hqb. apply Z.gcd_div_gcd; lia.
    + nia.
  - assert (Hgk : Z.gcd (k * width) (k * height) = k * Z.gcd width height)
      by (apply Z.gcd_mul_mono_l_nonneg; lia).
    rewrite (reduced_fraction_exact (k * width) (k * height))
      by (rewrite ?Hgk; nia).
    rewrite (reduced_fraction_exact width height) by lia.
    rewrite Hgk, !Z.div_mul_cancel_l by lia. reflexivity.
Qed.

Lemma reduced_fraction_lowest_terms_witness :
  reduced_fraction (F64.of_int (4 * 1000)) (F64.of_int (4 * 500))
  = reduced_fraction (F64.of_int 1000) (F64.of_int 500).
Proof.
  exact (proj2 (reduced_fraction_lowest_terms 1000 500 4
                  ltac:(lia) ltac:(lia) ltac:(lia) ltac:(lia) ltac:(lia))).
Defined.

(** X14. A first stream that lacks one dimension is classified without
    error: a positive width with height 0 gives "1:0", width 0 with a
    positive height gives "0:1" (both end under the "other" prefix). *)
Theorem one_dimension_missing (n : Z) (Hn : 0 < n < 2 ^ 53) :
  classify n 0 = Returned "1:0" /\ classify 0 n = Returned "0:1"
  /\ key_prefix "1:0" = "other" /\ key_prefix "0:1" = "other".
Proof.
  destruct n as [| p | p]; try lia.
  destruct (of_int_pos_exact p ltac:(lia)) as (m & e & Hf & He & Hm).
  assert (Hgl : Z.gcd (Zpos p) 0 = Zpos p) by (rewrite Z.gcd_0_r; lia).
  assert (Hgr : Z.gcd 0 (Zpos p) = Zpos p) by (rewrite Z.gcd_0_l; lia).
  split; [| split; [| split; reflexivity]].
  - unfold classify.
    assert (Hr : F64.div (F64.of_int (Zpos p)) (F64.of_int 0) = S754_infinity false)
      by (rewrite Hf; reflexivity).
    rewrite Hr.
    replace (within_epsilon (S754_infinity false) sixteen_ninths) with false
      by (vm_compute; reflexivity).
    replace (within_epsilon (S754_infinity false) nine_sixteenths) with false
      by (vm_compute; reflexivity).
    rewrite reduced_fraction_exact by lia.
    rewrite Hgl, Z.div_same, Z.div_0_l by lia. reflexivity.
  - unfold classify.
    assert (Hr : F64.div (F64.of_int 0) (F64.of_int (Zpos p)) = S754_zero false)
      by (rewrite Hf; reflexivity).
    rewrite Hr.
    replace (within_epsilon (S754_zero false) sixteen_ninths) with false
      by (vm_compute; reflexivity).
    replace (within_epsilon (S754_zero false) nine_sixteenths) with false
      by (vm_compute; reflexivity).
    rewrite reduced_fraction_exact by lia.
    rewrite Hgr, Z.div_same, Z.div_0_l by lia. reflexivity.
Qed.

Lemma one_dimension_missing_witness :
  classify 1920 0 = Returned "1:0" /\ classify 0 1080 = Returned "0:1".
Proof.
  pose proof (one_dimension_missing 1920 ltac:(lia)) as H1.
  pose proof (one_dimension_missing 1080 ltac:(lia)) as H2.
  exact (conj (proj1 H1) (proj1 (proj2 H2))).
Defined.

(** ** The Euclid loop on any integers *)

Section EuclidSigned.

Lemma gcd_rem (a b : Z) : Z.gcd b (Z.rem a b) = Z.gcd a b.
Proof.
  destruct (Z.eq_dec b 0) as [-> | Hb].
  - rewrite Z.rem_0_r_ext by reflexivity. apply Z.gcd_comm.
  - pose proof (Z.quot_rem' a b) as Hqr.
    replace (Z.rem a b) with (a + (- Z.quot a b) * b) by lia.
    rewrite Z.gcd_add_mult_diag_r. apply Z.gcd_comm.
Qed.

Lemma gcd_loop_abs_bounded (n : nat) : forall a b,
  Z.abs b < Z.of_nat n -> Z.abs (gcd_loop a b) = Z.gcd a b.
Proof.
  induction n as [| n IH]; intros a b Hn; [lia|].
  rewrite gcd_loop_unfold.
  destruct (Z.eqb_spec b 0) as [-> | Hb].
  - by rewrite Z.gcd_0_r.
  - pose proof (Z.rem_bound_abs a b Hb) as Hr. unfold GoInt.rem.
    rewrite IH by lia. apply gcd_rem.
Qed.

End EuclidSigned.

(** X20. The gcd loop of the classifier, [for b != 0 { a, b = b, a%b }],
    ends with the greatest common divisor up to sign for any two integers,
    negative ones included; it ends with 0 only when started from (0, 0), and
    it can end with a negative value, as from (1000, -500). *)
Theorem euclid_loop_any_sign (a b : Z) :
  Z.abs (gcd_loop a b) = Z.gcd a b
  /\ (gcd_loop a b = 0 <-> a = 0 /\ b = 0)
  /\ gcd_loop 1000 (-500) = -500.
Proof.
  assert (Habs : Z.abs (gcd_loop a b) = Z.gcd a b)
    by (apply (gcd_loop_abs_bounded (S (Z.abs_nat b))); lia).
  split; [exact Habs|]. split; [| vm_compute; reflexivity].
  split.
  - apply gcd_loop_zero.
  - intros [-> ->]. reflexivity.
Qed.

(** ** The thumbnail upload *)

(** X15. An unsupported thumbnail type is answered with 400 but the upload
    goes on: for the owner's request with a declared type that
    [mimeCheckImage] rejects, the file is created under the assets root with
    the uploaded bytes and the record's thumbnail URL is rewritten to it. *)
Theorem unsupported_thumbnail_still_stored (cfg : Thumbnail.Config)
  (env : Thumbnail.Env) (d : gmap string string)
  (v : gmap UUID Thumbnail.Video) (id userID : UUID) (token bytes mediaType : string)
  (video : Thumbnail.Video) (e : error)
  (Hid : Thumbnail.uuid_Parse env (Thumbnail.r_PathValue env) = Ok id)
  (Htoken : Thumbnail.auth_GetBearerToken env = Ok token)
  (Hjwt : Thumbnail.auth_ValidateJWT env token = Ok userID)
  (Hform : Thumbnail.r_FormFile env = Ok (bytes, mediaType))
  (Hvideo : v !! id = Some video)
  (Howner : Thumbnail.UserID video = userID)
  (Hmime : Thumbnail.mimeCheckImage env mediaType = Some e)
  (Hcreate : forall name, Thumbnail.os_Create env name = None)
  (Hcopy : Thumbnail.io_Copy env bytes = (bytes, None))
  (Hupdate : forall u, Thumbnail.db_UpdateVideo env u = None) :
  let w := Thumbnail.handlerUploadThumbnail cfg env (Thumbnail.initial d v) in
  let assetPath := Thumbnail.assetPath_of env mediaType in
  let file := Thumbnail.filepath_Join env (Thumbnail.assetsRoot cfg) assetPath in
  let stored := Thumbnail.mkVideo (Thumbnail.ID video) (Thumbnail.UserID video)
                  (Some (Thumbnail.thumbnail_url cfg assetPath))
                  (Thumbnail.time_Now env) in
  Thumbnail.status (Thumbnail.trace w) = Some StatusBadRequest
  /\ Thumbnail.disk w !! file = Some bytes
  /\ Thumbnail.videos w !! Thumbnail.ID video = Some stored
  /\ Thumbnail.trace w
     = [Thumbnail.EvGetVideo id; Thumbnail.EvRespond StatusBadRequest;
        Thumbnail.EvCreate file; Thumbnail.EvCopy file true;
        Thumbnail.EvUpdateVideo stored true; Thumbnail.EvGetVideo id;
        Thumbnail.EvRespond StatusOK].
Proof.
  subst userID. cbn zeta.
  assert (Hfound : <[Thumbnail.ID video :=
                       Thumbnail.mkVideo (Thumbnail.ID video) (Thumbnail.UserID video)
                         (Some (Thumbnail.thumbnail_url cfg
                                  (Thumbnail.assetPath_of env mediaType)))
                         (Thumbnail.time_Now env)]> v !! id <> None).
  { destruct (decide (Thumbnail.ID video = id)) as [-> | Hne].
    - by rewrite lookup_insert_eq.
    - by rewrite lookup_insert_ne, Hvideo. }
  unfold Thumbnail.handlerUploadThumbnail, Thumbnail.db_GetVideo,
    Thumbnail.db_Update, Thumbnail.respondWithError, Thumbnail.respondWithJSON,
    Thumbnail.emit, Thumbnail.initial.
  cbn [Thumbnail.videos Thumbnail.trace Thumbnail.disk].
  rewrite Hid, Htoken, Hjwt, Hform, Hvideo, N.eqb_refl. cbn [negb].
  rewrite Hmime, Hcreate, Hcopy.
  cbn [Thumbnail.videos Thumbnail.trace Thumbnail.disk].
  rewrite Hupdate.
  cbn [Thumbnail.videos Thumbnail.trace Thumbnail.disk Thumbnail.ID].
  destruct (<[Thumbnail.ID video := _]> v !! id) as [found|] eqn:Hlook; [|done].
  cbn [app Thumbnail.status Thumbnail.trace Thumbnail.disk Thumbnail.videos].
  rewrite !lookup_insert_eq. auto.
Qed.

Lemma unsupported_thumbnail_still_stored_witness :
  let w := Thumbnail.handlerUploadThumbnail ThumbnailExample.cfg
             (ThumbnailExample.env "text/html" ("image-bytes", None))
             (Thumbnail.initial ∅ (ThumbnailExample.store Example.alice)) in
  Thumbnail.status (Thumbnail.trace w) = Some StatusBadRequest
  /\ Thumbnail.disk w
       !! "./assets/KioqKioqKioqKioqKioqKioqKioqKioqKioqKioqKio.html"
     = Some "image-bytes".
Proof.
  destruct (unsupported_thumbnail_still_stored ThumbnailExample.cfg
              (ThumbnailExample.env "text/html" ("image-bytes", None))
              ∅ (ThumbnailExample.store Example.alice)
              Example.video_id Example.alice "bearer-of-alice" "image-bytes"
              "text/html"
              (Thumbnail.mkVideo Example.video_id Example.alice None 0)
              "not supported mimetype"
              eq_refl eq_refl eq_refl eq_refl eq_refl eq_refl eq_refl
              (fun _ => eq_refl) eq_refl (fun _ => eq_refl))
    as (Hs & Hd & _).
  split; [exact Hs | exact Hd].
Defined.

(** X16. Once the thumbnail file has been created, the record update is
    always attempted, also after a failed copy: the file stays on disk with
    whatever bytes the copy wrote, and the update carries the URL of that
    file. *)
Theorem thumbnail_update_follows_create (cfg : Thumbnail.Config)
  (env : Thumbnail.Env) (d : gmap string string)
  (v : gmap UUID Thumbnail.Video) (file : string) :
  let w := Thumbnail.handlerUploadThumbnail cfg env (Thumbnail.initial d v) in
  Thumbnail.EvCreate file ∈ Thumbnail.trace w ->
  exists bytes mediaType u ok,
    Thumbnail.r_FormFile env = Ok (bytes, mediaType)
    /\ file = Thumbnail.filepath_Join env (Thumbnail.assetsRoot cfg)
                (Thumbnail.assetPath_of env mediaType)
    /\ Thumbnail.disk w !! file = Some (fst (Thumbnail.io_Copy env bytes))
    /\ Thumbnail.EvUpdateVideo u ok ∈ Thumbnail.trace w
    /\ Thumbnail.ThumbnailURL u
       = Some (Thumbnail.thumbnail_url cfg (Thumbnail.assetPath_of env mediaType))
    /\ Thumbnail.UpdatedAt u = Thumbnail.time_Now env.
Proof.
  cbn zeta.
  thumbnail_run (Thumbnail.handlerUploadThumbnail cfg env (Thumbnail.initial d v));
    intros Hin; log_cases Hin; injection Hin as ->;
    do 4 eexists;
    (split; [first [eassumption | reflexivity]|]);
    (split; [reflexivity|]);
    (split; [rewrite lookup_insert_eq;
             repeat match goal with
                    | H : Thumbnail.io_Copy _ _ = _ |- _ => rewrite H; clear H
                    end; reflexivity|]);
    (split;
     [ repeat (first [apply list_elem_of_here | apply list_elem_of_further]) |]);
    split; reflexivity.
Qed.

Lemma thumbnail_update_follows_create_witness :
  let env := ThumbnailExample.env "image/png" ("image-bytes", None) in
  let w := Thumbnail.handlerUploadThumbnail ThumbnailExample.cfg env
             (Thumbnail.initial ∅ (ThumbnailExample.store Example.alice)) in
  let file := "./assets/KioqKioqKioqKioqKioqKioqKioqKioqKioqKioqKio.png" in
  exists bytes mediaType u ok,
    Thumbnail.r_FormFile env = Ok (bytes, mediaType)
    /\ file = Thumbnail.filepath_Join env (Thumbnail.assetsRoot ThumbnailExample.cfg)
                (Thumbnail.assetPath_of env mediaType)
    /\ Thumbnail.disk w !! file = Some (fst (Thumbnail.io_Copy env bytes))
    /\ Thumbnail.EvUpdateVideo u ok ∈ Thumbnail.trace w
    /\ Thumbnail.ThumbnailURL u
       = Some (Thumbnail.thumbnail_url ThumbnailExample.cfg
                 (Thumbnail.assetPath_of env mediaType))
    /\ Thumbnail.UpdatedAt u = Thumbnail.time_Now env.
Proof.
  apply (thumbnail_update_follows_create ThumbnailExample.cfg
           (ThumbnailExample.env "image/png" ("image-bytes", None)) ∅
           (ThumbnailExample.store Example.alice)
           "./assets/KioqKioqKioqKioqKioqKioqKioqKioqKioqKioqKio.png").
  in_log.
Defined.

(** X17. Answers of the thumbnail handler: a 401 answer means nothing was
    written to the disk or the metadata store; a 200 answer means the
    declared type passed [mimeCheckImage], the copy was complete, the file
    holds the copied bytes and the metadata store holds the updated record
    with the URL of that file. *)
Theorem thumbnail_answers (cfg : Thumbnail.Config)
  (env : Thumbnail.Env) (d : gmap string string)
  (v : gmap UUID Thumbnail.Video) :
  let w := Thumbnail.handlerUploadThumbnail cfg env (Thumbnail.initial d v) in
  (Thumbnail.status (Thumbnail.trace w) = Some StatusUnauthorized ->
   Thumbnail.disk w = d /\ Thumbnail.videos w = v)
  /\ (Thumbnail.status (Thumbnail.trace w) = Some StatusOK ->
      exists bytes mediaType u,
        Thumbnail.r_FormFile env = Ok (bytes, mediaType)
        /\ Thumbnail.mimeCheckImage env mediaType = None
        /\ Thumbnail.io_Copy env bytes = (fst (Thumbnail.io_Copy env bytes), None)
        /\ Thumbnail.disk w
             !! Thumbnail.filepath_Join env (Thumbnail.assetsRoot cfg)
                  (Thumbnail.assetPath_of env mediaType)
           = Some (fst (Thumbnail.io_Copy env bytes))
        /\ Thumbnail.videos w !! Thumbnail.ID u = Some u
        /\ Thumbnail.ThumbnailURL u
           = Some (Thumbnail.thumbnail_url cfg (Thumbnail.assetPath_of env mediaType))).
Proof.
  cbn zeta. split.
  - thumbnail_run (Thumbnail.handlerUploadThumbnail cfg env (Thumbnail.initial d v));
      cbn [Thumbnail.status]; intros Hs; try discriminate Hs; split; reflexivity.
  - thumbnail_run (Thumbnail.handlerUploadThumbnail cfg env (Thumbnail.initial d v));
      cbn [Thumbnail.status]; intros Hs; try discriminate Hs;
      do 3 eexists;
      (split; [first [eassumption | reflexivity]|]);
      (split;
       [ unfold Thumbnail.mimeCheckImage;
         repeat match goal with
                | H : Thumbnail.mime_ParseMediaType _ _ = _ |- _ =>
                    try rewrite H; clear H
                | H : String.eqb _ _ = _ |- _ => try rewrite H; clear H
                end; reflexivity |]);
      repeat match goal with
             | H : Thumbnail.io_Copy _ _ = _ |- _ => rewrite ?H; clear H
             end; cbn [fst];
      (split; [reflexivity|]);
      (split; [apply lookup_insert_eq|]);
      (split; [apply lookup_insert_eq | reflexivity]).
Qed.

Lemma thumbnail_answers_witness :
  let env := ThumbnailExample.env "image/png" ("image-bytes", None) in
  let w := Thumbnail.handlerUploadThumbnail ThumbnailExample.cfg env
             (Thumbnail.initial ∅ (ThumbnailExample.store Example.alice)) in
  exists bytes mediaType u,
    Thumbnail.r_FormFile env = Ok (bytes, mediaType)
    /\ Thumbnail.mimeCheckImage env mediaType = None
    /\ Thumbnail.io_Copy env bytes = (fst (Thumbnail.io_Copy env bytes), None)
    /\ Thumbnail.disk w
         !! Thumbnail.filepath_Join env (Thumbnail.assetsRoot ThumbnailExample.cfg)
              (Thumbnail.assetPath_of env mediaType)
       = Some (fst (Thumbnail.io_Copy env bytes))
    /\ Thumbnail.videos w !! Thumbnail.ID u = Some u
    /\ Thumbnail.ThumbnailURL u
       = Some (Thumbnail.thumbnail_url ThumbnailExample.cfg
                 (Thumbnail.assetPath_of env mediaType)).
Proof.
  apply (proj2 (thumbnail_answers ThumbnailExample.cfg
                  (ThumbnailExample.env "image/png" ("image-bytes", None)) ∅
                  (ThumbnailExample.store Example.alice))).
  vm_compute. reflexivity.
Defined.

(** X18. The thumbnail handler never removes or changes a file other than
    the asset it creates: apart from the path joined from the assets root and
    the generated asset name, the disk is as before. *)
Theorem thumbnail_disk_frame (cfg : Thumbnail.Config)
  (env : Thumbnail.Env) (d : gmap string string)
  (v : gmap UUID Thumbnail.Video) (name : string) :
  let w := Thumbnail.handlerUploadThumbnail cfg env (Thumbnail.initial d v) in
  Thumbnail.disk w !! name = d !! name
  \/ exists bytes mediaType,
       Thumbnail.r_FormFile env = Ok (bytes, mediaType)
       /\ name = Thumbnail.filepath_Join env (Thumbnail.assetsRoot cfg)
                   (Thumbnail.assetPath_of env mediaType)
       /\ Thumbnail.disk w !! name = Some (fst (Thumbnail.io_Copy env bytes)).
Proof.
  cbn zeta.
  thumbnail_run (Thumbnail.handlerUploadThumbnail cfg env (Thumbnail.initial d v));
    try (left; reflexivity);
    match goal with
    | |- context [<[?p := _]> _ !! name] =>
        destruct (decide (p = name)) as [<- | Hne];
        [ right; do 2 eexists;
          (split; [first [eassumption | reflexivity]|]);
          (split; [reflexivity|]);
          rewrite lookup_insert_eq;
          repeat match goal with
                 | H : Thumbnail.io_Copy _ _ = _ |- _ => rewrite ?H; clear H
                 end; reflexivity
        | left; rewrite !lookup_insert_ne by assumption; reflexivity ]
    end.
Qed.

(** X19. The asset name is a single path component: it contains no slash,
    whatever the declared media type, it ends with a dot and the text after
    the last slash of the declared type, and with 32 random bytes its token
    part has 43 characters. *)
Theorem thumbnail_asset_name (env : Thumbnail.Env) (mediaType : string) :
  let token := Base64.RawURLEncoding_EncodeToString (Thumbnail.rand_Read env) in
  let name := Thumbnail.assetPath_of env mediaType in
  count_char "/" name = O
  /\ name = token +:+ "." +:+ mimeToExt mediaType
  /\ String.length name
     = ((4 * length (Thumbnail.rand_Read env) + 2) / 3 + 1
        + String.length (mimeToExt mediaType))%nat
  /\ (length (Thumbnail.rand_Read env) = 32%nat -> String.length token = 43%nat).
Proof.
  cbn zeta. unfold Thumbnail.assetPath_of.
  destruct (mimeToExt_spec mediaType) as [Hext _].
  split.
  - rewrite !count_char_append, encode_no_slash, Hext. reflexivity.
  - split; [reflexivity|]. unfold Base64.RawURLEncoding_EncodeToString.
    split.
    + rewrite !length_append, encode_length. cbn [String.length]. lia.
    + intros Hlen. rewrite encode_length, Hlen. reflexivity.
Qed.

Lemma thumbnail_asset_name_witness :
  String.length
    (Base64.RawURLEncoding_EncodeToString
       (Thumbnail.rand_Read (ThumbnailExample.env "image/png" ("image-bytes", None))))
  = 43%nat.
Proof.
  apply (thumbnail_asset_name
           (ThumbnailExample.env "image/png" ("image-bytes", None)) "image/png").
  reflexivity.
Defined.

